(** * Quickbrush (wizzlethorpe-foundry): generation-mode resolver and
      local generation pipeline

    A shallow embedding of
      - [scripts/quickbrush-core.js]: [OpenAIClient], [ImageGenerator] and its
        four subclasses, [createGenerator];
      - the module script: [WizzlethorpeAPI] (account predicates and
        [generate]) and [QuickbrushDialog] ([_pickReferenceImage] and the
        strategy selection and local branch of [_updateObject]).

    JavaScript values are modelled by the type [Js]; strings are sequences of
    UTF-16 code units.  Asynchronous calls run strictly one after the other
    in the source (every call is awaited), so they are modelled in a state
    and exception monad whose state records the HTTP requests issued and the
    console output. *)

From Stdlib Require Import List ZArith NArith String Ascii Bool Lia DecimalString.
Import ListNotations.

Set Warnings "-register-all".

(* ------------------------------------------------------------------ *)
(** ** JavaScript values *)

Module JS.

(** A JavaScript string: its UTF-16 code units. *)
Definition jsstring := list N.

(** A string literal of the source (all literals modelled are ASCII). *)
Definition js (s : string) : jsstring :=
  map N_of_ascii (list_ascii_of_string s).

Fixpoint jsstring_eqb (a b : jsstring) : bool :=
  match a, b with
  | [], [] => true
  | x :: a', y :: b' => N.eqb x y && jsstring_eqb a' b'
  | _, _ => false
  end.

(** Decimal rendering of a loop index, as in the template literal
    [`reference_${i}.png`]. *)
Definition js_of_nat (n : nat) : jsstring :=
  js (NilZero.string_of_uint (Nat.to_uint n)).

(** The values the modelled code handles: JSON values, [undefined], and
    [Builtin], a function or object inherited from [Object.prototype]
    (reachable through [sizeMap[aspectRatio]]).  Numbers are only tested for
    truthiness and compared with integer constants. *)
Inductive Js : Type :=
| Undefined
| Null
| Bool (b : bool)
| Num (n : Z)
| Str (s : jsstring)
| Arr (items : list Js)
| Obj (props : list (jsstring * Js))
| Builtin (name : jsstring).

(** ToBoolean. *)
Definition truthy (v : Js) : bool :=
  match v with
  | Undefined | Null => false
  | Bool b => b
  | Num n => negb (Z.eqb n 0)
  | Str s => match s with [] => false | _ :: _ => true end
  | Arr _ | Obj _ | Builtin _ => true
  end.

(** [a || b] and [a && b] on values. *)
Definition js_or (a b : Js) : Js := if truthy a then a else b.
Definition js_and (a b : Js) : Js := if truthy a then b else a.

(** [v === 'literal']. *)
Definition strict_eq_str (v : Js) (lit : jsstring) : bool :=
  match v with
  | Str s => jsstring_eqb s lit
  | _ => false
  end.

(** Exceptions thrown by the modelled code and by the platform. *)
Inductive Exn : Type :=
| Error (message : jsstring)      (* [new Error(message)] *)
| TypeError                       (* property of null/undefined, call of a non-function *)
| SyntaxError                     (* [response.json()] on a body that is not JSON *)
| InvalidCharacterError           (* [atob] on a string that is not base64 *)
| FetchFailure (reason : jsstring) (* rejected [fetch] promise *).

Inductive Outcome (A : Type) : Type :=
| Ok (a : A)
| Throw (e : Exn).
Arguments Ok {A} a.
Arguments Throw {A} e.

Fixpoint lookup (k : jsstring) (props : list (jsstring * Js)) : Js :=
  match props with
  | [] => Undefined
  | (k', v) :: rest => if jsstring_eqb k k' then v else lookup k rest
  end.

(** [v.k] for the property names the code reads ([choices], [message],
    [content], [data], [b64_json], [error], [image], [description]): none of
    them is defined on a prototype, so the access yields an own property of
    an object, [undefined] on any other value, and throws on [null] and
    [undefined].  In [Obj props] the first binding of a name is the
    property's value. *)
Definition get (v : Js) (k : jsstring) : Outcome Js :=
  match v with
  | Undefined | Null => Throw TypeError
  | Obj props => Ok (lookup k props)
  | _ => Ok Undefined
  end.

(** [v[0]]. *)
Definition get0 (v : Js) : Outcome Js :=
  match v with
  | Undefined | Null => Throw TypeError
  | Arr items => Ok (nth 0 items Undefined)
  | Str s => Ok (match s with [] => Undefined | c :: _ => Str [c] end)
  | Obj props => Ok (lookup (js "0") props)
  | _ => Ok Undefined
  end.

(** [v?.k]: [undefined] when [v] is [null] or [undefined]. *)
Definition get_opt (v : Js) (k : jsstring) : Js :=
  match get v k with
  | Ok x => x
  | Throw _ => Undefined
  end.

(** WhiteSpace and LineTerminator code points of ECMAScript, the characters
    removed by [String.prototype.trim]. *)
Definition is_js_whitespace (c : N) : bool :=
  (N.eqb c 9 || N.eqb c 10 || N.eqb c 11 || N.eqb c 12 || N.eqb c 13
   || N.eqb c 32 || N.eqb c 160 || N.eqb c 5760
   || (N.leb 8192 c && N.leb c 8202)
   || N.eqb c 8232 || N.eqb c 8233 || N.eqb c 8239 || N.eqb c 8287
   || N.eqb c 12288 || N.eqb c 65279)%bool.

Fixpoint trim_start (s : jsstring) : jsstring :=
  match s with
  | [] => []
  | c :: rest => if is_js_whitespace c then trim_start rest else s
  end.

Definition trim_end (s : jsstring) : jsstring := rev (trim_start (rev s)).

Definition js_trim (s : jsstring) : jsstring := trim_end (trim_start s).

(** [v.trim()]: defined on strings; on any other non-nullish value [trim] is
    [undefined] and the call throws. *)
Definition call_trim (v : Js) : Outcome jsstring :=
  match v with
  | Str s => Ok (js_trim s)
  | _ => Throw TypeError
  end.

(** [s.split(',')[1] || s]: the text between the first and the second
    comma, or the whole string when there is no comma or that text is
    empty. *)
Fixpoint split_on (sep : N) (s : jsstring) : list jsstring :=
  match s with
  | [] => [[]]
  | c :: rest =>
      if N.eqb c sep then [] :: split_on sep rest
      else match split_on sep rest with
           | [] => [[c]]
           | piece :: pieces => (c :: piece) :: pieces
           end
  end.

Definition comma : N := 44.

Definition after_comma_or_self (s : jsstring) : jsstring :=
  match nth_error (split_on comma s) 1 with
  | Some (c :: piece) => c :: piece
  | _ => s
  end.

End JS.
Export JS.

(* ------------------------------------------------------------------ *)
(** ** Account state and the generation-mode resolver *)

Module Resolver.

(** The linked account as saved by the link flow
    ([JSON.stringify(data.user)]). *)
Record Account : Type := {
  tierName : jsstring;
  tierCents : Z
}.

(** The module settings read at request time.  [wizzlethorpeAccount] is the
    parsed setting: [None] when the stored text is empty or does not parse
    ([getLinkedAccount] returns [null]). *)
Record Settings : Type := {
  wizzlethorpeToken : jsstring;
  wizzlethorpeAccount : option Account;
  openaiApiKey : jsstring;
  useServerMode : bool;
  imageModel : jsstring
}.

(** [WizzlethorpeAPI.isLinked]: [!!token]. *)
Definition isLinked (s : Settings) : bool := truthy (Str (wizzlethorpeToken s)).

Definition getLinkedAccount (s : Settings) : option Account :=
  wizzlethorpeAccount s.

(** [WizzlethorpeAPI.canUseServerGeneration]. *)
Definition canUseServerGeneration (s : Settings) : bool :=
  match getLinkedAccount s with
  | None => false
  | Some account => Z.leb 500 (tierCents account)
  end.

(** [WizzlethorpeAPI.canUseBYOKAdvanced]. *)
Definition canUseBYOKAdvanced (s : Settings) : bool :=
  match getLinkedAccount s with
  | None => false
  | Some account => Z.leb 300 (tierCents account)
  end.

(** The three conditions computed by [QuickbrushDialog._updateObject]; the
    last two are values (the key string or [false]), as in the source. *)
Definition shouldUseAPI (s : Settings) : bool :=
  isLinked s && (canUseServerGeneration s && useServerMode s).

Definition shouldUseBYOKAPI (s : Settings) : Js :=
  js_and (js_and (Bool (isLinked s)) (Bool (negb (shouldUseAPI s))))
         (Str (openaiApiKey s)).

Definition shouldUseLocalBYOK (s : Settings) : Js :=
  js_and (Bool (negb (isLinked s))) (Str (openaiApiKey s)).

Inductive GenerationStrategy : Type :=
| ServerPooled          (* [if (shouldUseAPI)] *)
| ServerBrokeredBYOK    (* [else if (shouldUseBYOKAPI)] *)
| LocalDirectBYOK       (* [else] *).

(** What the selection block does: it picks a branch, or returns early after
    passing the listed messages to [ui.notifications.error]. *)
Inductive Resolution : Type :=
| Selected (strategy : GenerationStrategy)
| Unconfigured (errors : list jsstring).

Definition msg_no_account_no_key : jsstring :=
  js "Please link your Wizzlethorpe Labs account or configure an OpenAI API key in module settings.".

Definition msg_insufficient_tier_no_key : jsstring :=
  js "Server-side generation requires an Alchemist subscription. Please add an OpenAI API key for BYOK mode.".

Definition resolve (s : Settings) : Resolution :=
  let isLinked := isLinked s in
  let openaiApiKey := Str (openaiApiKey s) in
  let canUseServer := canUseServerGeneration s in
  if negb (shouldUseAPI s) && negb (truthy (shouldUseBYOKAPI s))
     && negb (truthy (shouldUseLocalBYOK s))
  then
    if negb isLinked && negb (truthy openaiApiKey) then
      Unconfigured [msg_no_account_no_key]
    else if isLinked && negb canUseServer && negb (truthy openaiApiKey) then
      Unconfigured [msg_insufficient_tier_no_key]
    else Unconfigured []
  else if shouldUseAPI s then Selected ServerPooled
  else if truthy (shouldUseBYOKAPI s) then Selected ServerBrokeredBYOK
  else Selected LocalDirectBYOK.

(** None of the three conditions holds. *)
Definition no_strategy (s : Settings) : bool :=
  negb (shouldUseAPI s) && negb (truthy (shouldUseBYOKAPI s))
  && negb (truthy (shouldUseLocalBYOK s)).

End Resolver.
Export Resolver.

(* ------------------------------------------------------------------ *)
(** ** HTTP requests, the platform, and the effect monad *)

Module Net.

Record Blob : Type := {
  blob_bytes : list N;
  blob_type : jsstring
}.

(** One entry of a [FormData]: a text field or a file part. *)
Inductive FormPart : Type :=
| Field (name value : jsstring)
| File (name : jsstring) (content : Blob) (filename : jsstring).

(** A request body: [JSON.stringify(payload)] or a [FormData]. *)
Inductive Body : Type :=
| JsonBody (payload : Js)
| FormBody (parts : list FormPart).

Record Request : Type := {
  url : jsstring;
  method : jsstring;
  headers : list (jsstring * jsstring);
  body : Body
}.

(** A response: [json_body] is [None] when [response.json()] rejects. *)
Record Response : Type := {
  ok : bool;
  statusText : jsstring;
  json_body : option Js
}.

Inductive FetchResult : Type :=
| Resolves (r : Response)
| Rejects (e : Exn).

(** What the code takes from its host: library functions of the browser
    and the remote servers.  [respond] answers a request given the requests
    issued before it. *)
Class Platform : Type := {
  JSON_stringify : Js -> jsstring;
  ToString_other : Js -> jsstring;
  atob : jsstring -> option jsstring;
  respond : list Request -> Request -> FetchResult
}.

Inductive ConsoleEntry : Type :=
| Warn (message : jsstring) (err : Exn)
| Log (arguments : list jsstring).

(** [ui.notifications.info] and [ui.notifications.warn]. *)
Inductive Notification : Type :=
| Info (message : jsstring)
| Warning (message : jsstring).

Record World : Type := {
  requests : list Request;
  console : list ConsoleEntry;
  notifications : list Notification
}.

Definition initial_world : World :=
  {| requests := []; console := []; notifications := [] |}.

Definition M (A : Type) : Type := World -> Outcome A * World.

Definition ret {A} (a : A) : M A := fun w => (Ok a, w).

Definition throw {A} (e : Exn) : M A := fun w => (Throw e, w).

Definition bind {A B} (m : M A) (k : A -> M B) : M B :=
  fun w =>
    match m w with
    | (Ok a, w') => k a w'
    | (Throw e, w') => (Throw e, w')
    end.

(** [try { m } catch (err) { handler err }]. *)
Definition try_catch {A} (m : M A) (handler : Exn -> M A) : M A :=
  fun w =>
    match m w with
    | (Ok a, w') => (Ok a, w')
    | (Throw e, w') => handler e w'
    end.

(** A pure expression that may throw. *)
Definition lift {A} (o : Outcome A) : M A := fun w => (o, w).

Definition console_warn (message : jsstring) (err : Exn) : M unit :=
  fun w => (Ok tt, {| requests := requests w;
                      console := console w ++ [Warn message err];
                      notifications := notifications w |}).

Definition console_log (arguments : list jsstring) : M unit :=
  fun w => (Ok tt, {| requests := requests w;
                      console := console w ++ [Log arguments];
                      notifications := notifications w |}).

Definition notify (n : Notification) : M unit :=
  fun w => (Ok tt, {| requests := requests w;
                      console := console w;
                      notifications := notifications w ++ [n] |}).

(** The world once a request has been issued. *)
Definition sent (req : Request) (w : World) : World :=
  {| requests := requests w ++ [req];
     console := console w;
     notifications := notifications w |}.

Section WithPlatform.

Context {P : Platform}.

(** [String(v)], as applied by template literals, [new Error] and
    [FormData.append]. *)
Definition ToString (v : Js) : jsstring :=
  match v with
  | Str s => s
  | _ => ToString_other v
  end.

(** [await fetch(...)]: the request is recorded, then answered. *)
Definition fetch (req : Request) : M Response :=
  fun w =>
    match respond (requests w) req with
    | Resolves r => (Ok r, sent req w)
    | Rejects e => (Throw e, sent req w)
    end.

(** [await response.json()]. *)
Definition json (r : Response) : M Js :=
  match json_body r with
  | Some v => ret v
  | None => throw SyntaxError
  end.

End WithPlatform.

End Net.
Export Net.

Declare Scope js_scope.
Delimit Scope js_scope with js.
Notation "x <- m ;; k" := (bind m (fun x => k))
  (at level 61, m at next level, right associativity) : js_scope.
Notation "m ;;; k" := (bind m (fun _ => k))
  (at level 61, right associativity) : js_scope.
Open Scope js_scope.

(* ------------------------------------------------------------------ *)
(** ** [OpenAIClient] (quickbrush-core.js) *)

Module OpenAIClient.

Section WithPlatform.

Context {P : Platform}.

Definition baseUrl : jsstring := js "https://api.openai.com/v1".

Definition chat_completions_url : jsstring := baseUrl ++ js "/chat/completions".
Definition images_generations_url : jsstring := baseUrl ++ js "/images/generations".
Definition images_edits_url : jsstring := baseUrl ++ js "/images/edits".

Definition POST : jsstring := js "POST".

Definition bearer (apiKey : jsstring) : jsstring * jsstring :=
  (js "Authorization", js "Bearer " ++ apiKey).

Definition json_headers (apiKey : jsstring) : list (jsstring * jsstring) :=
  [(js "Content-Type", js "application/json"); bearer apiKey].

(** The [if (!response.ok)] block shared by the three transport methods:
    [error.error?.message || response.statusText] wrapped in an [Error]. *)
Definition throw_api_error {A} (response : Response) : M A :=
  error <- try_catch (json response)
             (fun _ => ret (Obj [(js "error",
                                  Obj [(js "message", Str (statusText response))])])) ;;
  inner <- lift (get error (js "error")) ;;
  throw (Error (js "OpenAI API error: "
                ++ ToString (js_or (get_opt inner (js "message"))
                                   (Str (statusText response))))).

Definition chat_request (apiKey : jsstring) (params : Js) : Request :=
  {| url := chat_completions_url; method := POST;
     headers := json_headers apiKey;
     body := JsonBody params |}.

(** [_chatCompletion]. *)
Definition _chatCompletion (apiKey : jsstring) (params : Js) : M Js :=
  response <- fetch (chat_request apiKey params) ;;
  if negb (ok response) then throw_api_error response
  else json response.

Definition generation_request (apiKey : jsstring) (params : Js) : Request :=
  {| url := images_generations_url; method := POST;
     headers := json_headers apiKey;
     body := JsonBody params |}.

(** [_imageGeneration]. *)
Definition _imageGeneration (apiKey : jsstring) (params : Js) : M Js :=
  response <- fetch (generation_request apiKey params) ;;
  if negb (ok response) then throw_api_error response
  else json response.

(** The sentinel used when no reference image description is available. *)
Definition no_reference_images : jsstring := js "No reference images provided.".

Definition image_url_part (base64Image : jsstring) : Js :=
  Obj [(js "type", Str (js "image_url"));
       (js "image_url", Obj [(js "url", Str base64Image)])].

(** The parameters of the call that describes the reference images. *)
Definition reference_description_params (referenceImages : list jsstring) : Js :=
  Obj [(js "model", Str (js "gpt-4o"));
       (js "messages",
        Arr [Obj [(js "role", Str (js "system"));
                  (js "content", Str (js "You are a helpful assistant that generates detailed physical descriptions of provided images."))];
             Obj [(js "role", Str (js "user"));
                  (js "content",
                   Arr (Obj [(js "type", Str (js "text"));
                             (js "text", Str (js "Generate a detailed physical description of the subject of the image."))]
                        :: map image_url_part referenceImages))]])].

(** [response.choices[0].message.content]. *)
Definition first_choice_content (response : Js) : Outcome Js :=
  match get response (js "choices") with
  | Throw e => Throw e
  | Ok choices =>
      match get0 choices with
      | Throw e => Throw e
      | Ok choice =>
          match get choice (js "message") with
          | Throw e => Throw e
          | Ok message => get message (js "content")
          end
      end
  end.

(** The body of the [try] block of [generateDescription]: the describe call
    on the reference images and the new value of [imageDescription]. *)
Definition reference_description_attempt (apiKey : jsstring)
    (referenceImages : list jsstring) (imageDescription : Js) : M Js :=
  imageDescResponse <- _chatCompletion apiKey
                          (reference_description_params referenceImages) ;;
  content <- lift (first_choice_content imageDescResponse) ;;
  ret (js_or content imageDescription).

Definition msg_describe_failed : jsstring := js "Failed to describe reference images:".

(** First part of [generateDescription]: the value of [imageDescription]
    when the prompt structure is built. *)
Definition describe_reference_images (apiKey : jsstring)
    (referenceImages : list jsstring) : M Js :=
  let imageDescription := Str no_reference_images in
  match referenceImages with
  | [] => ret imageDescription
  | _ :: _ =>
      try_catch
        (reference_description_attempt apiKey referenceImages imageDescription)
        (fun err =>
           console_warn msg_describe_failed err ;;;
           ret imageDescription)
  end.

Definition promptJson (userText : jsstring) (imageDescription contextPrompt : Js) : Js :=
  Obj [(js "properties",
        Obj [(js "text",
              Obj [(js "type", Str (js "string"));
                   (js "description", Str (js "Long-form detailed information about the subject (e.g., possibly from a journal entry). May include irrelevant details; focus on physical description."));
                   (js "value", Str userText)]);
             (js "reference_images_description",
              Obj [(js "type", Str (js "string"));
                   (js "description", Str (js "A detailed physical description of the subject based on the provided reference images. If no reference images were provided, this will be an empty string."));
                   (js "value", imageDescription)]);
             (js "prompt",
              Obj [(js "type", Str (js "string"));
                   (js "description", Str (js "The context prompt for the description. This is what the user wants you to focus on when generating the description. It may even contradict details in the long-form text and/or reference images. Always prioritize this prompt over the long-form text and/or reference images."));
                   (js "value", contextPrompt)])])].

(** The parameters of the refinement call. *)
Definition refinement_params (systemPrompt userText : jsstring)
    (imageDescription contextPrompt : Js) : Js :=
  Obj [(js "model", Str (js "gpt-4o"));
       (js "messages",
        Arr [Obj [(js "role", Str (js "system"));
                  (js "content", Str systemPrompt)];
             Obj [(js "role", Str (js "user"));
                  (js "content",
                   Arr [Obj [(js "type", Str (js "text"));
                             (js "text",
                              Str (JSON_stringify
                                     (promptJson userText imageDescription contextPrompt)))]])]])].

Definition msg_no_response : jsstring := js "No response from OpenAI API.".
Definition msg_empty_description : jsstring := js "Parsed description is empty.".

(** What [generateDescription] does with the refinement response. *)
Definition parse_description (response : Js) : Outcome jsstring :=
  match get response (js "choices") with
  | Throw e => Throw e
  | Ok choices =>
      if negb (truthy choices) then Throw (Error msg_no_response)
      else
        match get0 choices with
        | Throw e => Throw e
        | Ok choice =>
            if negb (truthy choice) then Throw (Error msg_no_response)
            else
              match first_choice_content response with
              | Throw e => Throw e
              | Ok content =>
                  match call_trim (js_or content (Str [])) with
                  | Throw e => Throw e
                  | Ok descriptionText =>
                      if negb (truthy (Str descriptionText))
                      then Throw (Error msg_empty_description)
                      else Ok descriptionText
                  end
              end
        end
  end.

Record DescriptionParams : Type := {
  systemPrompt : jsstring;
  userText : jsstring;
  contextPrompt : Js;
  description_referenceImages : list jsstring
}.

(** Second part of [generateDescription]: the refinement call. *)
Definition refine_description (apiKey : jsstring) (p : DescriptionParams)
    (imageDescription : Js) : M jsstring :=
  response <- _chatCompletion apiKey
                (refinement_params (systemPrompt p) (userText p)
                                   imageDescription (contextPrompt p)) ;;
  lift (parse_description response).

(** [generateDescription]; the result is the [text] of the returned
    object. *)
Definition generateDescription (apiKey : jsstring) (p : DescriptionParams) : M jsstring :=
  imageDescription <- describe_reference_images apiKey (description_referenceImages p) ;;
  refine_description apiKey p imageDescription.


Record ImageParams : Type := {
  prompt : jsstring;
  referenceImages : list jsstring;
  model : jsstring;
  size : Js;
  quality : jsstring;
  background : jsstring
}.

Definition msg_no_image_data : jsstring := js "No image data returned from OpenAI API.".

(** [response.data[0].b64_json], guarded by
    [!response.data || !response.data[0] || !response.data[0].b64_json]. *)
Definition parse_image (response : Js) : Outcome Js :=
  match get response (js "data") with
  | Throw e => Throw e
  | Ok data =>
      if negb (truthy data) then Throw (Error msg_no_image_data)
      else
        match get0 data with
        | Throw e => Throw e
        | Ok first =>
            if negb (truthy first) then Throw (Error msg_no_image_data)
            else
              match get first (js "b64_json") with
              | Throw e => Throw e
              | Ok b64_json =>
                  if negb (truthy b64_json) then Throw (Error msg_no_image_data)
                  else Ok b64_json
              end
        end
  end.

Definition image_png : jsstring := js "image/png".

(** [atob] followed by the copy into a [Uint8Array]. *)
Definition decode_base64 (base64Data : jsstring) : Outcome (list N) :=
  match atob base64Data with
  | None => Throw InvalidCharacterError
  | Some binaryString => Ok (map (fun c => N.modulo c 256) binaryString)
  end.

(** The loop of [_imageEdit]: one file part per reference image, in order,
    starting at index [i]. *)
Fixpoint reference_parts (i : nat) (referenceImages : list jsstring)
  : Outcome (list FormPart) :=
  match referenceImages with
  | [] => Ok []
  | base64Image :: rest =>
      let base64Data := after_comma_or_self base64Image in
      match decode_base64 base64Data with
      | Throw e => Throw e
      | Ok bytes =>
          let blob := {| blob_bytes := bytes; blob_type := image_png |} in
          match reference_parts (S i) rest with
          | Throw e => Throw e
          | Ok parts =>
              Ok (File (js "image") blob
                       (js "reference_" ++ js_of_nat i ++ js ".png") :: parts)
          end
      end
  end.

Definition edit_fields (p : ImageParams) : list FormPart :=
  [Field (js "model") (model p);
   Field (js "prompt") (prompt p);
   Field (js "size") (ToString (size p));
   Field (js "quality") (quality p);
   Field (js "background") (background p);
   Field (js "n") (js "1")].

Definition edit_request (apiKey : jsstring) (p : ImageParams)
    (parts : list FormPart) : Request :=
  {| url := images_edits_url; method := POST;
     headers := [bearer apiKey];
     body := FormBody (edit_fields p ++ parts) |}.

(** [_imageEdit]. *)
Definition _imageEdit (apiKey : jsstring) (p : ImageParams) : M Js :=
  parts <- lift (reference_parts 0 (referenceImages p)) ;;
  response <- fetch (edit_request apiKey p parts) ;;
  if negb (ok response) then throw_api_error response
  else
    result <- json response ;;
    lift (parse_image result).

Definition generation_params (p : ImageParams) : Js :=
  Obj [(js "model", Str (model p));
       (js "prompt", Str (prompt p));
       (js "size", size p);
       (js "quality", Str (quality p));
       (js "background", Str (background p));
       (js "n", Num 1)].

(** [generateImage]. *)
Definition generateImage (apiKey : jsstring) (p : ImageParams) : M Js :=
  match referenceImages p with
  | _ :: _ => _imageEdit apiKey p
  | [] =>
      response <- _imageGeneration apiKey (generation_params p) ;;
      lift (parse_image response)
  end.

End WithPlatform.

End OpenAIClient.

(* ------------------------------------------------------------------ *)
(** ** [ImageGenerator] and its subclasses (quickbrush-core.js) *)

Module Generator.

(** The three methods every subclass overrides. *)
Record ImageGenerator : Type := {
  getPrompt : jsstring -> jsstring;
  getSystemPrompt : jsstring;
  getDefaultContextPrompt : jsstring
}.

(** [CharacterImageGenerator]. *)
Definition CharacterImageGenerator_getPrompt (description : jsstring) : jsstring :=
  js "Highly stylized digital concept art profile of "
  ++ description
  ++ js ". Rendered in a fantasy-steampunk illustration style inspired by graphic novel and fantasy RPG character art with bold, clean line work, muted yet rich colors, and dramatic cel-shading. Facial features are expressive and detailed, with textured hair and stylized lighting that adds depth and mood. The background fades into negative space, as if the character is emerging from the page. The character is looking directly at the viewer. The background is white. The character is centered in the frame, with their head and shoulders fitting within the image.".

Definition CharacterImageGenerator : ImageGenerator :=
  {| getPrompt := CharacterImageGenerator_getPrompt;
     getSystemPrompt :=
       js "You are a helpful assistant that creates short but detailed character descriptions based on the prompt provided and a general description of the character. Always give preference to the prompt over the general description (e.g., the prompt might ask them to wear a specific outfit or have a certain hairstyle while the general description describes them as typically wearing a different outfit). This will be used as a prompt for generating an image, so be as consistent and descriptive as possible. Include any relevant physical details that someone would need to accurately visualize the character. Focus on the physical description and do not include any names (even the character's name), personality traits, lore, etc.";
     getDefaultContextPrompt := js "Generate a physical description of a character." |}.

(** [SceneImageGenerator]. *)
Definition SceneImageGenerator_getPrompt (description : jsstring) : jsstring :=
  let specific :=
    if truthy (Str description) then js " featuring " ++ description else [] in
  js "Highly stylized digital concept art"
  ++ specific
  ++ js ". Rendered in a fantasy illustration style inspired by graphic novel and fantasy RPG scene art with bold, clean line work, muted yet rich colors, and dramatic cel-shading. The background fades into negative space, as if the scene is emerging from the page. The scene is from a ground, first-person perspective, with a wide view of the environment. Focus on the physical description and do not include any names, personality traits, lore, etc. The background is white.".

Definition SceneImageGenerator : ImageGenerator :=
  {| getPrompt := SceneImageGenerator_getPrompt;
     getSystemPrompt :=
       js "You are a helpful assistant that creates short but detailed scene descriptions based on the prompt provided and a general description of the scene. Always give preference to the prompt over the general description (e.g., the prompt might ask for a specific setting or time of day while the general description describes a different setting). This will be used as a prompt for generating an image, so be as consistent and descriptive as possible. Focus on the physical description and do not include any names, personality traits, lore, etc.";
     getDefaultContextPrompt := [] |}.

(** [CreatureImageGenerator]. *)
Definition CreatureImageGenerator_getPrompt (description : jsstring) : jsstring :=
  js "Highly stylized digital concept art profile of "
  ++ description
  ++ js ". Rendered in a fantasy illustration style inspired by graphic novel and fantasy RPG creature art with bold, clean line work, muted yet rich colors, and dramatic cel-shading. Facial features are expressive and detailed, with textured skin/fur/scales and stylized lighting that adds depth and mood. The background fades into negative space, as if the creature is emerging from the page. The creature is looking directly at the viewer. The background is white. The creature is centered in the frame, with their head and shoulders fitting within the image.".

Definition CreatureImageGenerator : ImageGenerator :=
  {| getPrompt := CreatureImageGenerator_getPrompt;
     getSystemPrompt :=
       js "You are a helpful assistant that creates short but detailed creature descriptions based on the prompt provided and a general description of the creature's appearance. Always give preference to the prompt over the general description (e.g., the prompt might ask them to have a specific feature or color while the general description describes them as typically having different features). This will be used as a prompt for generating an image, so be as consistent and descriptive as possible. Focus on the physical description and do not include any names (even the creature's name), personality traits, lore, etc.";
     getDefaultContextPrompt := js "Generate a physical description of a creature." |}.

(** [ItemImageGenerator]. *)
Definition ItemImageGenerator_getPrompt (description : jsstring) : jsstring :=
  js "Highly stylized digital concept art of "
  ++ description
  ++ js ". Rendered in a fantasy illustration style inspired by graphic novel and fantasy RPG item art with bold, clean line work, muted yet rich colors, and dramatic cel-shading. The item is detailed and textured, with stylized lighting that adds depth and mood. The background fades into negative space, as if the item is emerging from the page. The item is centered in the frame, fitting within the image with space around it. The background is white.".

Definition ItemImageGenerator : ImageGenerator :=
  {| getPrompt := ItemImageGenerator_getPrompt;
     getSystemPrompt :=
       js "You are a helpful assistant that creates short but detailed item descriptions based on the prompt provided and a general description of the item's appearance. Always give preference to the prompt over the general description (e.g., the prompt might ask for a specific material or design while the general description describes it as typically having different features). This will be used as a prompt for generating an image, so be as consistent and descriptive as possible. Only relate the physical description of the item and do not include any names (even of the item itself), lore, personality, etc.";
     getDefaultContextPrompt := js "Generate a physical description of the item." |}.

(** [createGenerator]. *)
Definition createGenerator (type : jsstring) : Outcome ImageGenerator :=
  if jsstring_eqb type (js "character") then Ok CharacterImageGenerator
  else if jsstring_eqb type (js "scene") then Ok SceneImageGenerator
  else if jsstring_eqb type (js "creature") then Ok CreatureImageGenerator
  else if jsstring_eqb type (js "item") then Ok ItemImageGenerator
  else Throw (Error (js "Unknown generator type: " ++ type)).

(** Names every object inherits from [Object.prototype]. *)
Definition object_prototype_names : list jsstring :=
  map js ["constructor"; "__defineGetter__"; "__defineSetter__";
          "hasOwnProperty"; "__lookupGetter__"; "__lookupSetter__";
          "isPrototypeOf"; "propertyIsEnumerable"; "toString"; "valueOf";
          "__proto__"; "toLocaleString"]%string.

(** [_mapAspectRatioToSize]: [sizeMap[aspectRatio] || '1024x1024']. *)
Definition _mapAspectRatioToSize (aspectRatio : jsstring) : Js :=
  let sizeMap :=
    [(js "square", Str (js "1024x1024"));
     (js "landscape", Str (js "1536x1024"));
     (js "portrait", Str (js "1024x1536"))] in
  let found :=
    match lookup aspectRatio sizeMap with
    | Undefined =>
        if existsb (jsstring_eqb aspectRatio) object_prototype_names
        then Builtin aspectRatio else Undefined
    | v => v
    end in
  js_or found (Str (js "1024x1024")).

Record GenerateImageArgs : Type := {
  description : jsstring;
  arg_referenceImages : list jsstring;
  arg_model : jsstring;
  arg_quality : jsstring;
  aspectRatio : jsstring
}.

Section WithPlatform.

Context {P : Platform}.

(** [getDescription(text, prompt = null, referenceImages = [])]. *)
Definition getDescription (g : ImageGenerator) (apiKey : jsstring)
    (text : jsstring) (prompt : Js) (referenceImages : list jsstring) : M jsstring :=
  let prompt := match prompt with Undefined => Null | _ => prompt end in
  let contextPrompt := js_or prompt (Str (getDefaultContextPrompt g)) in
  let systemPrompt := getSystemPrompt g in
  OpenAIClient.generateDescription apiKey
    {| OpenAIClient.systemPrompt := systemPrompt;
       OpenAIClient.userText := text;
       OpenAIClient.contextPrompt := contextPrompt;
       OpenAIClient.description_referenceImages := referenceImages |}.

(** The argument [ImageGenerator.generateImage] passes to the client;
    [background] is left to the client's default. *)
Definition client_image_params (g : ImageGenerator) (a : GenerateImageArgs)
  : OpenAIClient.ImageParams :=
  {| OpenAIClient.prompt := getPrompt g (description a);
     OpenAIClient.referenceImages := arg_referenceImages a;
     OpenAIClient.model := arg_model a;
     OpenAIClient.size := _mapAspectRatioToSize (aspectRatio a);
     OpenAIClient.quality := arg_quality a;
     OpenAIClient.background := js "transparent" |}.

(** [generateImage]: the synthesis call, then the decoding to a PNG blob. *)
Definition generateImage (g : ImageGenerator) (apiKey : jsstring)
    (a : GenerateImageArgs) : M Blob :=
  base64Image <- OpenAIClient.generateImage apiKey (client_image_params g a) ;;
  bytes <- lift (OpenAIClient.decode_base64 (ToString base64Image)) ;;
  ret {| blob_bytes := bytes; blob_type := OpenAIClient.image_png |}.

End WithPlatform.

End Generator.

(* ------------------------------------------------------------------ *)
(** ** [WizzlethorpeAPI.generate] and the branches of
       [QuickbrushDialog._updateObject] *)

Module Pipeline.

Import Generator.

(** The submitted form. *)
Record FormData : Type := {
  text : jsstring;
  image_name : jsstring;
  form_prompt : jsstring;
  generation_type : jsstring;
  form_quality : jsstring;
  aspect_ratio : jsstring
}.

Definition API_BASE_URL : jsstring := js "https://wizzlethorpe.com".
Definition api_generate_url : jsstring := API_BASE_URL ++ js "/api/generate".

Definition msg_not_linked : jsstring := js "No Wizzlethorpe account linked".
Definition msg_subscription_required : jsstring := js "Subscription required for this feature".
Definition msg_quota_exceeded : jsstring := js "Weekly quota exceeded".
Definition msg_generation_failed : jsstring := js "Generation failed".

(** [WizzlethorpeAPI.getToken]. *)
Definition getToken (s : Settings) : Js := js_or (Str (wizzlethorpeToken s)) Null.

Section WithPlatform.

Context {P : Platform}.

(** The message of [new Error(message || fallback)]. *)
Definition surfaced_message (message : Js) (fallback : jsstring) : jsstring :=
  ToString (js_or message (Str fallback)).

(** [throw new Error(data.message || fallback)]. *)
Definition throw_message {A} (data : Js) (fallback : jsstring) : M A :=
  message <- lift (get data (js "message")) ;;
  throw (Error (surfaced_message message fallback)).

Definition generate_request (token : Js) (params : Js) : Request :=
  {| url := api_generate_url; method := OpenAIClient.POST;
     headers := OpenAIClient.json_headers (ToString token);
     body := JsonBody params |}.

(** [WizzlethorpeAPI.generate]. *)
Definition generate (s : Settings) (params : Js) : M Js :=
  let token := getToken s in
  if negb (truthy token) then throw (Error msg_not_linked)
  else
    response <- fetch (generate_request token params) ;;
    data <- json response ;;
    if negb (ok response) then
      discriminant <- lift (get data (js "error")) ;;
      if strict_eq_str discriminant (js "subscription_required")
      then throw_message data msg_subscription_required
      else if strict_eq_str discriminant (js "quota_exceeded")
      then throw_message data msg_quota_exceeded
      else throw_message data msg_generation_failed
    else ret data.

(** [game.settings.get(MODULE_ID, 'imageModel') || 'gpt-image-1-mini']. *)
Definition effective_model (s : Settings) : jsstring :=
  match imageModel s with
  | [] => js "gpt-image-1-mini"
  | m => m
  end.

(** The parameters both server branches send; the BYOK branch adds
    [apiKey]. *)
Definition generate_params (s : Settings) (f : FormData)
    (base64ReferenceImages : list jsstring) (withKey : bool) : Js :=
  Obj ([(js "type", Str (generation_type f));
        (js "text", Str (text f));
        (js "prompt", js_or (Str (form_prompt f)) (Str []));
        (js "referenceImages", Arr (map Str base64ReferenceImages));
        (js "model", Str (effective_model s));
        (js "quality", Str (form_quality f));
        (js "aspectRatio", Str (aspect_ratio f))]
       ++ (if withKey then [(js "apiKey", Str (openaiApiKey s))] else [])).

(** The two server branches: [result.image] and [result.description].
    (The usage line the pooled branch logs on success is not modelled.) *)
Definition serverGeneration (s : Settings) (f : FormData)
    (base64ReferenceImages : list jsstring) (withKey : bool) : M (Js * Js) :=
  console_log [if withKey then js "Wizzlethorpe | Using Wizzlethorpe API (BYOK mode)"
               else js "Wizzlethorpe | Using Wizzlethorpe API (server mode)"] ;;;
  notify (Info (if withKey then js "Generating with your API key..."
                else js "Generating with Wizzlethorpe Labs...")) ;;;
  result <- generate s (generate_params s f base64ReferenceImages withKey) ;;
  base64Image <- lift (get result (js "image")) ;;
  refinedDescription <- lift (get result (js "description")) ;;
  ret (base64Image, refinedDescription).

Definition step1_notice : Notification := Info (js "Step 1/2: Refining description...").
Definition step2_notice : Notification := Info (js "Step 2/2: Generating image...").
Definition msg_refined_description : jsstring := js "Wizzlethorpe | Refined description:".
Definition msg_local_mode : jsstring := js "Wizzlethorpe | Using local BYOK mode".

(** The argument of [generator.generateImage] in the local branch. *)
Definition local_image_args (s : Settings) (f : FormData)
    (base64ReferenceImages : list jsstring) (refinedDescription : jsstring)
  : GenerateImageArgs :=
  {| description := refinedDescription;
     arg_referenceImages := base64ReferenceImages;
     arg_model := effective_model s;
     arg_quality := form_quality f;
     aspectRatio := aspect_ratio f |}.

(** The local branch once the core library is in place: describe, then
    synthesise.  (Loading the core module and the later upload of the image
    are outside this definition; [Loader.localBranch] has the branch with
    the load.) *)
Definition localGeneration (s : Settings) (f : FormData)
    (base64ReferenceImages : list jsstring) : M (jsstring * Blob) :=
  let apiKey := openaiApiKey s in
  console_log [msg_local_mode] ;;;
  generator <- lift (createGenerator (generation_type f)) ;;
  notify step1_notice ;;;
  refinedDescription <- getDescription generator apiKey (text f)
                          (js_or (Str (form_prompt f)) Null)
                          base64ReferenceImages ;;
  console_log [msg_refined_description; refinedDescription] ;;;
  notify step2_notice ;;;
  imageBlob <- generateImage generator apiKey
                 (local_image_args s f base64ReferenceImages refinedDescription) ;;
  ret (refinedDescription, imageBlob).

(** The requests [OpenAIClient.generateImage] issues: the generation request,
    or the edit request once every reference image has been decoded. *)
Definition synthesis_calls (apiKey : jsstring) (p : OpenAIClient.ImageParams)
  : list Request :=
  match OpenAIClient.referenceImages p with
  | [] => [OpenAIClient.generation_request apiKey (OpenAIClient.generation_params p)]
  | _ :: _ =>
      match OpenAIClient.reference_parts 0 (OpenAIClient.referenceImages p) with
      | Ok parts => [OpenAIClient.edit_request apiKey p parts]
      | Throw _ => []
      end
  end.

End WithPlatform.

(** The context prompt and the parameters [getDescription] hands to the
    client in the local branch. *)
Definition effective_context (g : ImageGenerator) (f : FormData) : Js :=
  js_or (js_or (Str (form_prompt f)) Null) (Str (getDefaultContextPrompt g)).

Definition local_description_params (g : ImageGenerator) (f : FormData)
    (base64ReferenceImages : list jsstring) : OpenAIClient.DescriptionParams :=
  {| OpenAIClient.systemPrompt := getSystemPrompt g;
     OpenAIClient.userText := text f;
     OpenAIClient.contextPrompt := effective_context g f;
     OpenAIClient.description_referenceImages := base64ReferenceImages |}.

(** The size table of the specification. *)
Definition spec_size_table : list (jsstring * jsstring) :=
  [(js "square", js "1024x1024");
   (js "landscape", js "1536x1024");
   (js "portrait", js "1024x1536")].

(** A request to one of the two image-synthesis endpoints. *)
Definition is_synthesis_call (r : Request) : bool :=
  jsstring_eqb (url r) OpenAIClient.images_generations_url
  || jsstring_eqb (url r) OpenAIClient.images_edits_url.

(** A request to the chat endpoint (describe and refine calls). *)
Definition is_describe_call (r : Request) : bool :=
  jsstring_eqb (url r) OpenAIClient.chat_completions_url.

(** The file parts of a request body. *)
Definition binary_parts (r : Request) : list (jsstring * Blob) :=
  match body r with
  | JsonBody _ => []
  | FormBody parts =>
      flat_map (fun part => match part with
                            | File name content _ => [(name, content)]
                            | Field _ _ => []
                            end) parts
  end.

(** A file part of the edit request: field [image], a PNG blob. *)
Definition is_png_image_part (part : FormPart) : Prop :=
  match part with
  | File name content _ =>
      name = js "image" /\ blob_type content = OpenAIClient.image_png
  | Field _ _ => False
  end.

(** The text of a named field of a multipart body. *)
Fixpoint form_field (name : jsstring) (parts : list FormPart) : option jsstring :=
  match parts with
  | [] => None
  | Field n v :: rest => if jsstring_eqb name n then Some v else form_field name rest
  | File _ _ _ :: rest => form_field name rest
  end.

(** The [size] a synthesis request carries: the JSON property or the form
    field. *)
Definition payload_size (r : Request) : option jsstring :=
  match body r with
  | JsonBody payload =>
      match get_opt payload (js "size") with
      | Str size => Some size
      | _ => None
      end
  | FormBody parts => form_field (js "size") parts
  end.

(** The number of images a synthesis request asks for: [n] of the JSON body,
    or the form field [n]. *)
Definition payload_n (r : Request) : option Js :=
  match body r with
  | JsonBody payload => Some (get_opt payload (js "n"))
  | FormBody parts =>
      match form_field (js "n") parts with
      | Some v => Some (Str v)
      | None => None
      end
  end.

(** The requests issued by the first part of [generateDescription]. *)
Definition describe_calls (apiKey : jsstring) (referenceImages : list jsstring)
  : list Request :=
  match referenceImages with
  | [] => []
  | _ :: _ =>
      [OpenAIClient.chat_request apiKey
         (OpenAIClient.reference_description_params referenceImages)]
  end.

(** The requests issued between two worlds of one run. *)
Definition issued (before after : World) : list Request :=
  skipn (List.length (requests before)) (requests after).

(** The world after [ui.notifications.info(message)]. *)
Definition noted (n : Notification) (w : World) : World := snd (notify n w).

(** The world after [console.log(...arguments)]. *)
Definition logged (arguments : list jsstring) (w : World) : World :=
  snd (console_log arguments w).

(** The world in which the local branch starts its description step. *)
Definition at_step1 (w : World) : World :=
  noted step1_notice (logged [msg_local_mode] w).

(** The world in which the local branch starts its synthesis step. *)
Definition at_step2 (refinedDescription : jsstring) (w : World) : World :=
  noted step2_notice (logged [msg_refined_description; refinedDescription] w).

(** The world after [console.warn(message, err)]. *)
Definition warned (message : jsstring) (err : Exn) (w : World) : World :=
  snd (console_warn message err w).

End Pipeline.

(* ------------------------------------------------------------------ *)
(** ** The reference-image list of [QuickbrushDialog] *)

Module Dialog.

Definition msg_max_reference_images : jsstring := js "Maximum 4 reference images allowed".

(** The [FilePicker] callback of [_pickReferenceImage]: the new list and the
    notifications shown. *)
Definition pick_callback (path : jsstring) (referenceImages : list jsstring)
  : list jsstring * list Notification :=
  if Nat.ltb (List.length referenceImages) 4
  then (referenceImages ++ [path], [])
  else (referenceImages, [Warning msg_max_reference_images]).

(** [this.referenceImages.splice(index, 1)] of the remove button. *)
Fixpoint splice1 (index : nat) (referenceImages : list jsstring) : list jsstring :=
  match index, referenceImages with
  | _, [] => []
  | O, _ :: rest => rest
  | S i, x :: rest => x :: splice1 i rest
  end.

(** The click handler of the journal menu entry: it scans the visible
    pages and collects the [src] of their images while fewer than four have
    been collected.  A page is given by the [src] attributes of its images
    ([undefined] when an image has none). *)
Definition push_src (referenceImages : list jsstring) (src : Js) : list jsstring :=
  if Nat.ltb (List.length referenceImages) 4 then
    match src with
    | Str (c :: rest) => referenceImages ++ [c :: rest]
    | _ => referenceImages
    end
  else referenceImages.

Definition scan_page (referenceImages : list jsstring) (page : list Js) : list jsstring :=
  if Nat.ltb (List.length referenceImages) 4
  then fold_left push_src page referenceImages
  else referenceImages.

Definition journal_reference_images (pages : list (list Js)) : list jsstring :=
  fold_left scan_page pages [].

(** The actor and item entries: the document's own image, unless it is the
    placeholder. *)
Definition document_reference_images (img : Js) (isPlaceholder : bool) : list jsstring :=
  match img with
  | Str (c :: rest) => if isPlaceholder then [] else [c :: rest]
  | _ => []
  end.

Inductive Action : Type :=
| Pick (path : jsstring)
| Remove (index : nat).

Definition step (referenceImages : list jsstring) (a : Action) : list jsstring :=
  match a with
  | Pick path => fst (pick_callback path referenceImages)
  | Remove index => splice1 index referenceImages
  end.

Definition run (actions : list Action) (referenceImages : list jsstring) : list jsstring :=
  fold_left step actions referenceImages.

End Dialog.

(* ------------------------------------------------------------------ *)
(** ** Test doubles: concrete settings, platforms and servers *)

Module Doubles.

Import Pipeline.

Definition alchemist : Account := {| tierName := js "Alchemist"; tierCents := 500 |}.
Definition free_tier : Account := {| tierName := js "Free"; tierCents := 0 |}.

Definition settings (token : jsstring) (account : option Account)
    (key : jsstring) (serverMode : bool) : Settings :=
  {| wizzlethorpeToken := token;
     wizzlethorpeAccount := account;
     openaiApiKey := key;
     useServerMode := serverMode;
     imageModel := js "gpt-image-1-mini" |}.

(** Linked, tier 500, server mode preferred. *)
Definition linked_alchemist : Settings :=
  settings (js "token") (Some alchemist) [] true.

(** Linked, tier 0, a local key. *)
Definition linked_free_with_key : Settings :=
  settings (js "token") (Some free_tier) (js "x") true.

(** Not linked, a local key. *)
Definition unlinked_with_key : Settings :=
  settings [] None (js "x") true.

(** Not linked, no key. *)
Definition unlinked_no_key : Settings :=
  settings [] None [] true.

(** Linked, tier 500, server mode switched off, no key. *)
Definition linked_alchemist_server_off_no_key : Settings :=
  settings (js "token") (Some alchemist) [] false.

Definition respond_with (status_ok : bool) (payload : Js) : FetchResult :=
  Resolves {| ok := status_ok; statusText := js "status"; json_body := Some payload |}.

(** A chat response whose first choice has the given message content. *)
Definition chat_response (content : Js) : Js :=
  Obj [(js "choices", Arr [Obj [(js "message", Obj [(js "content", content)])]])].

(** An image response carrying the given base64 text. *)
Definition image_response (b64 : jsstring) : Js :=
  Obj [(js "data", Arr [Obj [(js "b64_json", Str b64)]])].

(** Library functions of the double: [atob] accepts every string and
    returns it unchanged. *)
Definition double (server : list Request -> Request -> FetchResult) : Platform :=
  {| JSON_stringify := fun _ => js "{}";
     ToString_other := fun _ => js "[object Object]";
     atob := fun s => Some s;
     respond := server |}.

(** A server on which every call succeeds. *)
Definition healthy_server (history : list Request) (r : Request) : FetchResult :=
  if is_describe_call r then respond_with true (chat_response (Str (js "a tall elf")))
  else respond_with true (image_response (js "iVBORw0KGgo")).

(** A server whose first call fails and whose later calls succeed. *)
Definition first_call_fails (history : list Request) (r : Request) : FetchResult :=
  match history with
  | [] => Rejects (FetchFailure (js "Failed to fetch"))
  | _ :: _ => healthy_server history r
  end.

(** A server whose chat responses carry only white space. *)
Definition blank_server (history : list Request) (r : Request) : FetchResult :=
  if is_describe_call r then respond_with true (chat_response (Str [32; 10; 9]%N))
  else respond_with true (image_response (js "iVBORw0KGgo")).

(** A broker that answers every call with status ok and a body carrying
    the discriminant quota_exceeded. *)
Definition accepting_broker (history : list Request) (r : Request) : FetchResult :=
  respond_with true (Obj [(js "error", Str (js "quota_exceeded"));
                          (js "message", Str (js "Limit reached"))]).

(** A broker that refuses every call with the given discriminant and
    message. *)
Definition refusing_broker (discriminant : jsstring) (message : Js)
    (history : list Request) (r : Request) : FetchResult :=
  respond_with false (Obj [(js "error", Str discriminant); (js "message", message)]).

Definition character_form : FormData :=
  {| text := js "Mira, a ranger of the northern woods";
     image_name := js "Mira";
     form_prompt := [];
     generation_type := js "character";
     form_quality := js "high";
     aspect_ratio := js "square" |}.

Definition scene_form : FormData :=
  {| text := js "The harbour at dawn";
     image_name := js "Harbour";
     form_prompt := js "fog over the water";
     generation_type := js "scene";
     form_quality := js "medium";
     aspect_ratio := js "landscape" |}.

Definition square_params (refs : list jsstring) : OpenAIClient.ImageParams :=
  {| OpenAIClient.prompt := js "a brass lantern";
     OpenAIClient.referenceImages := refs;
     OpenAIClient.model := js "gpt-image-1-mini";
     OpenAIClient.size := Str (js "1024x1024");
     OpenAIClient.quality := js "medium";
     OpenAIClient.background := js "transparent" |}.

Definition one_reference : list jsstring := [js "data:image/png;base64,AAAA"].

Definition five_references : list jsstring :=
  [js "data:image/png;base64,AAAA"; js "data:image/png;base64,AAAB";
   js "data:image/png;base64,AAAC"; js "data:image/png;base64,AAAD";
   js "data:image/png;base64,AAAE"].

End Doubles.

(* ------------------------------------------------------------------ *)
(** ** More of the module script: account, form gate, file names, journal
       text, reference-image conversion, link polling, cocktail cards *)

Module Account.

(** [WizzlethorpeAPI.unlink]: both settings are set to the empty string, so
    [getLinkedAccount] reads [null]. *)
Definition unlink (s : Settings) : Settings :=
  {| wizzlethorpeToken := [];
     wizzlethorpeAccount := None;
     openaiApiKey := openaiApiKey s;
     useServerMode := useServerMode s;
     imageModel := imageModel s |}.

End Account.

Module Form.

Import Pipeline.

Definition msg_need_description : jsstring :=
  js "Please provide a description for your image.".
Definition msg_need_name : jsstring :=
  js "Please provide a name for your image.".

(** [!value || !value.trim()] on a form field. *)
Definition blank (value : jsstring) : bool :=
  negb (truthy (Str value)) || negb (truthy (Str (js_trim value))).

(** What [QuickbrushDialog._updateObject] decides before it starts to
    generate: a warning about the form, the resolver's early return, or the
    branch to run. *)
Inductive Submission : Type :=
| InvalidForm (warning : jsstring)
| NotConfigured (errors : list jsstring)
| Generate (strategy : GenerationStrategy).

Definition submission (s : Settings) (f : FormData) : Submission :=
  if blank (text f) then InvalidForm msg_need_description
  else if blank (image_name f) then InvalidForm msg_need_name
  else match resolve s with
       | Unconfigured errors => NotConfigured errors
       | Selected strategy => Generate strategy
       end.

(** [\w] of a regular expression without flags. *)
Definition is_word_char (c : N) : bool :=
  (N.leb 48 c && N.leb c 57) || (N.leb 65 c && N.leb c 90)
  || (N.leb 97 c && N.leb c 122) || N.eqb c 95.

Definition hyphen : N := 45.

(** [.replace(/[^\w\s-]/g, '')]. *)
Definition strip_special (s : jsstring) : jsstring :=
  filter (fun c => is_word_char c || is_js_whitespace c || N.eqb c hyphen) s.

(** [.replace(/\s+/g, '-')]: every maximal run of white space becomes one
    hyphen; [in_run] tells that the previous character was white space. *)
Fixpoint hyphenate (in_run : bool) (s : jsstring) : jsstring :=
  match s with
  | [] => []
  | c :: rest =>
      if is_js_whitespace c
      then if in_run then hyphenate true rest else hyphen :: hyphenate true rest
      else c :: hyphenate false rest
  end.

(** [formData.image_name.replace(/[^\w\s-]/g, '').trim().replace(/\s+/g, '-')]. *)
Definition sanitized (image_name : jsstring) : jsstring :=
  hyphenate false (js_trim (strip_special image_name)).

(** [`${sanitized}-${Date.now()}.png`], given the decimal text of the
    clock. *)
Definition filename (image_name now : jsstring) : jsstring :=
  sanitized image_name ++ [hyphen] ++ now ++ js ".png".

End Form.

Module Journal.

Definition max_text_length : nat := 100 * 100.

(** The loop of [extractVisibleJournalText]: a page is the text of its
    [.journal-page-content], or [None] when it has none. *)
Fixpoint page_texts (textContent : jsstring) (pages : list (option jsstring)) : jsstring :=
  match pages with
  | [] => textContent
  | Some text :: rest => page_texts (textContent ++ text ++ js " ") rest
  | None :: rest => page_texts textContent rest
  end.

(** [extractVisibleJournalText]. *)
Definition extractVisibleJournalText (pages : list (option jsstring)) : jsstring :=
  match pages with
  | [] => []
  | _ :: _ => js_trim (firstn max_text_length (page_texts [] pages))
  end.

End Journal.

Module References.

(** What becomes of one image path in [convertImagesToBase64]: the fetch
    rejects, the response is not ok, reading the blob throws, the
    [FileReader] fails, or the data URI is read. *)
Inductive ImageRead : Type :=
| FetchRejected (e : Exn)
| ResponseNotOk
| BlobRejected (e : Exn)
| ReaderFailed
| DataUri (uri : jsstring).

(** The [console.warn] lines of [convertImagesToBase64]. *)
Inductive ConversionWarning : Type :=
| FailedToFetch (imagePath : jsstring)
| ErrorConverting (imagePath : jsstring) (error : option Exn).

Section WithReader.

(** The host's answer for the image at a position of the list. *)
Variable read_image : nat -> jsstring -> ImageRead.

(** [convertImagesToBase64], from position [i] on: the data URIs pushed and
    the warnings logged. *)
Fixpoint convert_from (i : nat) (imagePaths : list jsstring)
  : list jsstring * list ConversionWarning :=
  match imagePaths with
  | [] => ([], [])
  | imagePath :: rest =>
      let (base64Images, warnings) := convert_from (S i) rest in
      match read_image i imagePath with
      | DataUri uri => (uri :: base64Images, warnings)
      | ResponseNotOk => (base64Images, FailedToFetch imagePath :: warnings)
      | FetchRejected e | BlobRejected e =>
          (base64Images, ErrorConverting imagePath (Some e) :: warnings)
      | ReaderFailed => (base64Images, ErrorConverting imagePath None :: warnings)
      end
  end.

Definition convertImagesToBase64 (imagePaths : list jsstring)
  : list jsstring * list ConversionWarning :=
  convert_from 0 imagePaths.

(** [referenceImagePaths.length > 0 ? await this.convertImagesToBase64(...) : []]
    of [_updateObject]. *)
Definition base64ReferenceImages (referenceImagePaths : list jsstring) : list jsstring :=
  match referenceImagePaths with
  | [] => []
  | _ :: _ => fst (convertImagesToBase64 referenceImagePaths)
  end.

End WithReader.

End References.

Module Linking.

Definition msg_link_expired : jsstring := js "Link code expired. Please try again.".
Definition msg_link_timed_out : jsstring := js "Linking timed out. Please try again.".

Definition link_status_url (linkCode : jsstring) : jsstring :=
  js "https://wizzlethorpe.com/api/auth/link-status?code=" ++ linkCode.

(** [s.startsWith(needle)] and [s.includes(needle)]. *)
Fixpoint starts_with (needle s : jsstring) : bool :=
  match needle, s with
  | [], _ => true
  | _ :: _, [] => false
  | x :: needle', y :: s' => N.eqb x y && starts_with needle' s'
  end.

Fixpoint js_includes (needle s : jsstring) : bool :=
  starts_with needle s
  || match s with
     | [] => false
     | _ :: rest => js_includes needle rest
     end.

(** What the host provides to the polling loop: the response to the status
    request of each attempt, the [message] of the exceptions the platform
    throws, and [JSON.stringify] on a value that has a JSON text. *)
Class LinkHost : Type := {
  poll_status : nat -> jsstring -> FetchResult;
  platform_message : Exn -> jsstring;
  stringify : Js -> jsstring
}.

(** What a run of the loop has done: the URLs fetched, the settings written
    ([game.settings.set]) and the errors passed to [console.warn]. *)
Record LinkRun : Type := {
  polls : list jsstring;
  saved : list (jsstring * Js);
  retried : list Exn
}.

Definition no_run : LinkRun := {| polls := []; saved := []; retried := [] |}.

Section WithHost.

Context {H : LinkHost}.

(** [error.message]. *)
Definition error_message (e : Exn) : jsstring :=
  match e with
  | Error message => message
  | FetchFailure reason => reason
  | _ => platform_message e
  end.

(** [JSON.stringify(data.user)]. *)
Definition stringified (user : Js) : Js :=
  match user with
  | Undefined | Builtin _ => Undefined
  | _ => Str (stringify user)
  end.

Inductive Attempt : Type :=
| Completed (user : Js)
| Thrown (e : Exn)
| Continue.

Definition polled (url : jsstring) (run : LinkRun) : LinkRun :=
  {| polls := polls run ++ [url]; saved := saved run; retried := retried run |}.

Definition saving (token user : Js) (run : LinkRun) : LinkRun :=
  {| polls := polls run;
     saved := saved run ++ [(js "wizzlethorpeToken", token);
                            (js "wizzlethorpeAccount", stringified user)];
     retried := retried run |}.

(** The [catch] block of the loop. *)
Definition caught (error : Exn) (run : LinkRun) : Attempt * LinkRun :=
  if js_includes (js "expired") (error_message error)
  then (Thrown error, run)
  else (Continue, {| polls := polls run; saved := saved run;
                     retried := retried run ++ [error] |}).

(** One iteration of [pollForLinkCompletion].  The wait before the
    request is not modelled, and the two [game.settings.set] calls are taken
    to succeed. *)
Definition attempt_link (attempt : nat) (linkCode : jsstring) (run : LinkRun)
  : Attempt * LinkRun :=
  let url := link_status_url linkCode in
  let run := polled url run in
  match poll_status attempt url with
  | Rejects e => caught e run
  | Resolves response =>
      match json_body response with
      | None => caught SyntaxError run
      | Some data =>
          match get data (js "status") with
          | Throw e => caught e run
          | Ok status =>
              if strict_eq_str status (js "completed")
                 && truthy (get_opt data (js "token"))
              then
                let user := get_opt data (js "user") in
                let run := saving (get_opt data (js "token")) user run in
                match get user (js "name") with
                | Throw e => caught e run
                | Ok _ => (Completed user, run)
                end
              else if strict_eq_str status (js "expired")
              then caught (Error msg_link_expired) run
              else (Continue, run)
          end
      end
  end.

(** The loop, with [remaining] iterations left. *)
Fixpoint poll_loop (remaining attempt : nat) (linkCode : jsstring) (run : LinkRun)
  : Outcome Js * LinkRun :=
  match remaining with
  | O => (Throw (Error msg_link_timed_out), run)
  | S remaining' =>
      match attempt_link attempt linkCode run with
      | (Completed user, run') => (Ok user, run')
      | (Thrown e, run') => (Throw e, run')
      | (Continue, run') => poll_loop remaining' (S attempt) linkCode run'
      end
  end.

(** [WizzlethorpeAPI.pollForLinkCompletion(linkCode, maxAttempts)]. *)
Definition pollForLinkCompletion (linkCode : jsstring) (maxAttempts : nat)
  : Outcome Js * LinkRun :=
  poll_loop maxAttempts 0 linkCode no_run.

End WithHost.

End Linking.

Module Cocktails.

Definition card_open : jsstring :=
  [10%N] ++ js "      <div class=" ++ [34%N] ++ js "bixbys-cocktail-card" ++ [34%N] ++ js ">" ++ [10%N] ++ js "        <h3 class=" ++ [34%N] ++ js "cocktail-name" ++ [34%N] ++ js ">" ++ [63743%N; 252%N; 231%N; 8719%N] ++ js " ".

Definition card_after_name : jsstring :=
  js "</h3>" ++ [10%N] ++ js "        <p class=" ++ [34%N] ++ js "cocktail-description" ++ [34%N] ++ js "><em>".

Definition card_after_description : jsstring :=
  js "</em></p>" ++ [10%N] ++ js "        <p class=" ++ [34%N] ++ js "cocktail-liquor" ++ [34%N] ++ js "><strong>Base:</strong> ".

Definition card_after_liquor : jsstring :=
  js "</p>" ++ [10%N] ++ js "        <p class=" ++ [34%N] ++ js "cocktail-ingredient" ++ [34%N] ++ js "><strong>Ingredient:</strong> ".

Definition card_after_ingredient : jsstring :=
  js "</p>" ++ [10%N] ++ js "    ".

Definition garnish_open : jsstring :=
  js "<p class=" ++ [34%N] ++ js "cocktail-garnish" ++ [34%N] ++ js "><strong>Garnish:</strong> ".

Definition garnish_close : jsstring :=
  js "</p>".

Definition effect_open : jsstring :=
  js "<div class=" ++ [34%N] ++ js "cocktail-effect" ++ [34%N] ++ js "><strong>Effect (" ++ [63743%N; 252%N; 233%N; 8804%N].

Definition effect_after_roll : jsstring :=
  js "):</strong> ".

Definition effect_close : jsstring :=
  js "</div>".

Definition garnish_effect_open : jsstring :=
  js "<div class=" ++ [34%N] ++ js "garnish-effect" ++ [34%N] ++ js "><strong>Garnish Effect:</strong> ".

Definition garnish_effect_close : jsstring :=
  js "</div>".

Definition card_close : jsstring :=
  js "</div>".

Section WithPlatform.

Context {P : Platform}.

(** [BixbysCocktails.buildChatContent]; [showEffects] is the setting
    [showCocktailEffects], [isGM] is [game.user.isGM].  The properties read
    ([name], [description]) are not defined on a prototype of the values
    modelled. *)
Definition buildChatContent (showEffects isGM : bool)
    (cocktail liquor ingredient garnish effect effectRoll : Js) : Outcome jsstring :=
  match get cocktail (js "name") with
  | Throw e => Throw e
  | Ok name =>
      match get cocktail (js "description") with
      | Throw e => Throw e
      | Ok description =>
          let html :=
            card_open ++ ToString name
            ++ card_after_name ++ ToString description
            ++ card_after_description
            ++ ToString (js_or (get_opt liquor (js "name")) (Str (js "Unknown")))
            ++ card_after_liquor
            ++ ToString (js_or (get_opt ingredient (js "name")) (Str (js "Unknown")))
            ++ card_after_ingredient in
          let html :=
            (* [garnish] is truthy where [garnish.name] is read, so the
               access cannot throw *)
            if truthy garnish
            then html ++ garnish_open ++ ToString (get_opt garnish (js "name"))
                      ++ garnish_close
            else html in
          let html :=
            if isGM || showEffects then
              let html :=
                if truthy effect
                then html ++ effect_open ++ ToString effectRoll
                          ++ effect_after_roll ++ ToString effect ++ effect_close
                else html in
              if truthy (get_opt garnish (js "description"))
              then html ++ garnish_effect_open
                        ++ ToString (get_opt garnish (js "description"))
                        ++ garnish_effect_close
              else html
            else html in
          Ok (html ++ card_close)
      end
  end.

End WithPlatform.

End Cocktails.

(** [loadQuickbrushCore] and the local branch of [_updateObject] from its
    first line, with the dynamic import of the core library. *)
Module Loader.

Import Generator Pipeline.

Definition coreUrl : jsstring :=
  js "modules/wizzlethorpe-labs/scripts/quickbrush-core.js".

Definition msg_loading : jsstring := js "Wizzlethorpe | Loading core library from: ".
Definition msg_loaded : jsstring :=
  js "Wizzlethorpe | Quickbrush core library loaded successfully".
Definition msg_load_failed : jsstring :=
  js "Wizzlethorpe | Failed to load Quickbrush core library".
Definition msg_load_failed_notice : jsstring :=
  js "Wizzlethorpe Labs: Failed to load Quickbrush core library. Please check your module installation.".

(** What the loader does besides [console.log]: the dynamic [import(url)],
    [console.error(message, error)] and [ui.notifications.error(message)]. *)
Inductive LoaderEvent : Type :=
| Imported (url : jsstring)
| ConsoleError (message : jsstring) (error : Exn)
| NotifiedError (message : jsstring).

(** What the loader takes from the browser: [window.location.origin] (a
    scheme, a host and a port, without a path) and the outcome of
    [import(url)] given the loader's events so far: [None] when it resolves
    (with the core library modelled above, which exports no
    [QuickbrushCore], so that [module.QuickbrushCore || module] is the
    module), the error when it rejects. *)
Class Browser : Type := {
  origin : jsstring;
  import_module : list LoaderEvent -> jsstring -> option Exn
}.

(** The state of a page: the world of the requests, the module variable
    [QuickbrushCore] ([true] once it holds the library) and the loader's
    events. *)
Record Session : Type := {
  world : World;
  QuickbrushCore : bool;
  loader_events : list LoaderEvent
}.

(** A computation on the world, run in a session. *)
Definition in_world {A} (m : M A) (h : Session) : Outcome A * Session :=
  let (outcome, w) := m (world h) in
  (outcome, {| world := w;
               QuickbrushCore := QuickbrushCore h;
               loader_events := loader_events h |}).

Definition recorded (event : LoaderEvent) (h : Session) : Session :=
  {| world := world h;
     QuickbrushCore := QuickbrushCore h;
     loader_events := loader_events h ++ [event] |}.

Definition cached (h : Session) : Session :=
  {| world := world h; QuickbrushCore := true; loader_events := loader_events h |}.

Section WithBrowser.

Context {B : Browser}.

(** [new URL(coreUrl, window.location.origin).href]. *)
Definition absoluteUrl : jsstring := origin ++ js "/" ++ coreUrl.

(** [loadQuickbrushCore]. *)
Definition loadQuickbrushCore (h : Session) : Outcome unit * Session :=
  if QuickbrushCore h then (Ok tt, h)
  else
    let h := snd (in_world (console_log [msg_loading ++ absoluteUrl]) h) in
    match import_module (loader_events h) absoluteUrl with
    | None =>
        let h := cached (recorded (Imported absoluteUrl) h) in
        (Ok tt, snd (in_world (console_log [msg_loaded]) h))
    | Some error =>
        let h := recorded (Imported absoluteUrl) h in
        let h := recorded (ConsoleError msg_load_failed error) h in
        let h := recorded (NotifiedError msg_load_failed_notice) h in
        (Throw error, h)
    end.

Context {P : Platform}.

(** The local branch after the load: the generator, the description step
    and the synthesis step. *)
Definition local_steps (s : Settings) (f : FormData)
    (base64ReferenceImages : list jsstring) : M (jsstring * Blob) :=
  let apiKey := openaiApiKey s in
  generator <- lift (createGenerator (generation_type f)) ;;
  notify step1_notice ;;;
  refinedDescription <- getDescription generator apiKey (text f)
                          (js_or (Str (form_prompt f)) Null)
                          base64ReferenceImages ;;
  console_log [msg_refined_description; refinedDescription] ;;;
  notify step2_notice ;;;
  imageBlob <- generateImage generator apiKey
                 (local_image_args s f base64ReferenceImages refinedDescription) ;;
  ret (refinedDescription, imageBlob).

(** The local branch of [_updateObject], from [console.log('Wizzlethorpe |
    Using local BYOK mode')] to the blob [generator.generateImage]
    returns. *)
Definition localBranch (s : Settings) (f : FormData)
    (base64ReferenceImages : list jsstring) (h : Session)
  : Outcome (jsstring * Blob) * Session :=
  let h := snd (in_world (console_log [msg_local_mode]) h) in
  match loadQuickbrushCore h with
  | (Throw error, h) => (Throw error, h)
  | (Ok _, h) => in_world (local_steps s f base64ReferenceImages) h
  end.

End WithBrowser.

End Loader.

(** Predicates and projections used to state properties of the code
    above. *)
Module Observations.

Import Pipeline Linking.

(** A request of the local branch: to the chat or to an image endpoint of
    the provider, authorised with the local key, and not to the first-party
    backend. *)
Definition local_request (apiKey : jsstring) (r : Request) : Prop :=
  (is_describe_call r || is_synthesis_call r = true)
  /\ In (OpenAIClient.bearer apiKey) (headers r)
  /\ url r <> api_generate_url.

(** The file name of a part. *)
Definition part_filename (part : FormPart) : jsstring :=
  match part with
  | File _ _ filename => filename
  | Field _ _ => []
  end.

(** The non-empty [src] strings of a list of attribute values. *)
Definition src_strings (srcs : list Js) : list jsstring :=
  flat_map (fun src => match src with
                       | Str (c :: rest) => [c :: rest]
                       | _ => []
                       end) srcs.

(** A status response that neither completes nor expires the link. *)
Definition still_pending (r : FetchResult) : Prop :=
  exists response data status,
    r = Resolves response
    /\ json_body response = Some data
    /\ get data (js "status") = Ok status
    /\ strict_eq_str status (js "completed") = false
    /\ strict_eq_str status (js "expired") = false.

(** A character allowed in a sanitized file name. *)
Definition name_char (c : N) : bool := Form.is_word_char c || N.eqb c Form.hyphen.

End Observations.

(** Doubles for the added code. *)
Module MoreDoubles.

Import References Linking Doubles.

(** A host on which the second image of a list cannot be fetched. *)
Definition second_image_missing (i : nat) (imagePath : jsstring) : ImageRead :=
  match i with
  | 1%nat => ResponseNotOk
  | _ => DataUri (js "data:image/png;base64," ++ imagePath)
  end.

Definition status_response (status : jsstring) (more : list (jsstring * Js)) : FetchResult :=
  respond_with true (Obj ((js "status", Str status) :: more)).

Definition merlin : Js :=
  Obj [(js "name", Str (js "Merlin")); (js "tierName", Str (js "Alchemist"));
       (js "tierCents", Num 500)].

(** A link that is pending twice, then fails once, then completes. *)
Definition link_completes_at_3 : LinkHost :=
  {| poll_status := fun attempt _ =>
       match attempt with
       | 0%nat | 1%nat => status_response (js "pending") []
       | 2%nat => Rejects (FetchFailure (js "Failed to fetch"))
       | _ => status_response (js "completed")
                [(js "token", Str (js "secret")); (js "user", merlin)]
       end;
     platform_message := fun _ => js "unexpected";
     stringify := fun _ => js "{}" |}.

(** A link that stays pending. *)
Definition link_pending : LinkHost :=
  {| poll_status := fun _ _ => status_response (js "pending") [];
     platform_message := fun _ => js "unexpected";
     stringify := fun _ => js "{}" |}.

(** An OpenAI double that refuses every call with the given body. *)
Definition refusing_openai (body : option Js) : Platform :=
  double (fun _ _ => Resolves {| ok := false; statusText := js "Too Many Requests";
                                 json_body := body |}).

Definition rate_limit_body : Js :=
  Obj [(js "error", Obj [(js "message", Str (js "Rate limit reached"))])].

(** An OpenAI double whose responses are ok but carry the given body. *)
Definition answering (body : Js) : Platform :=
  double (fun _ _ => respond_with true body).

(** A platform whose [atob] rejects every text that contains [!]. *)
Definition strict_atob : Platform :=
  {| JSON_stringify := fun _ => js "{}";
     ToString_other := fun _ => js "[object Object]";
     atob := fun s => if existsb (N.eqb 33) s then None else Some s;
     respond := healthy_server |}.

(** A page that has not loaded the core library yet. *)
Definition fresh_session : Loader.Session :=
  {| Loader.world := initial_world;
     Loader.QuickbrushCore := false;
     Loader.loader_events := [] |}.

(** A browser that cannot load the core library. *)
Definition offline_browser : Loader.Browser :=
  {| Loader.origin := js "http://localhost:30000";
     Loader.import_module := fun _ _ => Some (FetchFailure (js "Failed to fetch dynamically imported module")) |}.

(** A browser that loads the core library. *)
Definition serving_browser : Loader.Browser :=
  {| Loader.origin := js "http://localhost:30000";
     Loader.import_module := fun _ _ => None |}.

Definition mojito : Js :=
  Obj [(js "name", Str (js "Moonlit Mojito"));
       (js "description", Str (js "Glows faintly."))].

Definition rum : Js := Obj [(js "name", Str (js "Rum"))].

Definition mint : Js :=
  Obj [(js "name", Str (js "Mint")); (js "description", Str (js "Cools the drinker."))].

(** A garnish record as the data file has them, and the same garnish
    without its description. *)
Definition mint_record : Js :=
  Obj [(js "id", Str (js "mint")); (js "name", Str (js "Mint"));
       (js "description", Str (js "Cools the drinker."));
       (js "goodWith", Arr [Str (js "rum")]); (js "badWith", Arr [])].

Definition plain_mint : Js := Obj [(js "name", Str (js "Mint"))].

End MoreDoubles.

(* ------------------------------------------------------------------ *)
(** ** Properties of the resolver *)

Module ResolverFacts.

Import Doubles.

Ltac open_resolver :=
  unfold resolve, no_strategy, shouldUseLocalBYOK, shouldUseBYOKAPI,
    shouldUseAPI, canUseServerGeneration, getLinkedAccount, isLinked,
    js_and in *.

Ltac split_settings s :=
  destruct s as [token account key serverMode imageModel];
  destruct token as [|t0 token]; destruct key as [|k0 key];
  destruct serverMode; destruct account as [[name cents]|];
  cbn [wizzlethorpeToken wizzlethorpeAccount openaiApiKey useServerMode
       tierCents tierName truthy negb andb] in *.

(** C1.  On a settings snapshot the resolver selects the server-pooled
    branch when an account is linked, its tier is at least 500 cents and
    server mode is preferred; the brokered bring-your-own-key branch when an
    account of tier 0 is linked and a local API key is present; the local
    bring-your-own-key branch when no account is linked and a key is present;
    and it reports the unconfigured state, with the message asking to link
    an account or configure a key, when no account is linked and no key is
    present. *)
Theorem resolve_cases (s : Settings) :
  (isLinked s = true ->
   (exists account, getLinkedAccount s = Some account /\ (500 <= tierCents account)%Z) ->
   useServerMode s = true ->
   resolve s = Selected ServerPooled)
  /\ (isLinked s = true ->
      (exists account, getLinkedAccount s = Some account /\ tierCents account = 0%Z) ->
      openaiApiKey s <> [] ->
      resolve s = Selected ServerBrokeredBYOK)
  /\ (isLinked s = false ->
      openaiApiKey s <> [] ->
      resolve s = Selected LocalDirectBYOK)
  /\ (isLinked s = false ->
      openaiApiKey s = [] ->
      resolve s = Unconfigured [msg_no_account_no_key]).
Proof.
  split; [| split; [| split]].
  - intros L [account [A T]] U. open_resolver.
    rewrite L, A, U. apply Z.leb_le in T. rewrite T. reflexivity.
  - intros L [account [A T]] K. open_resolver.
    rewrite L, A, T.
    destruct (openaiApiKey s) as [|c key]; [contradiction | reflexivity].
  - intros L K. open_resolver. rewrite L.
    destruct (openaiApiKey s) as [|c key]; [contradiction | reflexivity].
  - intros L K. open_resolver. rewrite L, K. reflexivity.
Qed.

Lemma resolve_cases_witness :
  resolve linked_alchemist = Selected ServerPooled
  /\ resolve linked_free_with_key = Selected ServerBrokeredBYOK
  /\ resolve unlinked_with_key = Selected LocalDirectBYOK
  /\ resolve unlinked_no_key = Unconfigured [msg_no_account_no_key].
Proof.
  split; [| split; [| split]].
  - apply (proj1 (resolve_cases linked_alchemist)).
    + reflexivity.
    + exists alchemist. split; [reflexivity | simpl; lia].
    + reflexivity.
  - apply (proj1 (proj2 (resolve_cases linked_free_with_key))).
    + reflexivity.
    + exists free_tier. split; reflexivity.
    + discriminate.
  - apply (proj1 (proj2 (proj2 (resolve_cases unlinked_with_key)))).
    + reflexivity.
    + discriminate.
  - apply (proj2 (proj2 (proj2 (resolve_cases unlinked_no_key)))).
    + reflexivity.
    + reflexivity.
Defined.

(** Every snapshot with no applicable strategy ends in [Unconfigured]; the
    message depends on the snapshot as follows. *)
Lemma resolve_no_strategy (s : Settings) :
  no_strategy s = true ->
  (isLinked s = false /\ openaiApiKey s = []
   /\ resolve s = Unconfigured [msg_no_account_no_key])
  \/ (isLinked s = true /\ canUseServerGeneration s = false /\ openaiApiKey s = []
      /\ resolve s = Unconfigured [msg_insufficient_tier_no_key])
  \/ (isLinked s = true /\ canUseServerGeneration s = true
      /\ useServerMode s = false /\ openaiApiKey s = []
      /\ resolve s = Unconfigured []).
Proof.
  open_resolver. split_settings s;
    try destruct (500 <=? cents)%Z; cbn; intro H; try discriminate H;
    first [ left; repeat split; reflexivity
          | right; left; repeat split; reflexivity
          | right; right; repeat split; reflexivity ].
Qed.

(** C2.  The snapshot "linked, tier 500, server mode off, no key" has no
    applicable strategy, and the selection block returns without emitting
    either error message. *)
Theorem resolve_silent_on_linked_server_off_no_key :
  no_strategy linked_alchemist_server_off_no_key = true
  /\ resolve linked_alchemist_server_off_no_key = Unconfigured [].
Proof. split; reflexivity. Qed.

(** C9.  At most one of the three strategy conditions is true: the brokered
    condition requires the server-pooled one to be false and the account
    linked, the local condition requires the account unlinked, and the
    server-pooled condition requires it linked. *)
Theorem strategy_conditions_exclusive (s : Settings) :
  let pooled := shouldUseAPI s in
  let brokered := truthy (shouldUseBYOKAPI s) in
  let local := truthy (shouldUseLocalBYOK s) in
  (Nat.b2n pooled + Nat.b2n brokered + Nat.b2n local <= 1)%nat
  /\ (brokered = true -> pooled = false /\ isLinked s = true)
  /\ (local = true -> isLinked s = false)
  /\ (pooled = true -> isLinked s = true).
Proof.
  open_resolver. split_settings s;
    try destruct (500 <=? cents)%Z; cbn;
    repeat split; intros; try discriminate; try lia.
Qed.

Lemma strategy_conditions_exclusive_witness :
  shouldUseAPI linked_free_with_key = false
  /\ isLinked linked_free_with_key = true
  /\ isLinked unlinked_with_key = false
  /\ isLinked linked_alchemist = true.
Proof.
  pose proof (strategy_conditions_exclusive linked_free_with_key) as [_ [B _]].
  pose proof (strategy_conditions_exclusive unlinked_with_key) as [_ [_ [L _]]].
  pose proof (strategy_conditions_exclusive linked_alchemist) as [_ [_ [_ A]]].
  destruct (B eq_refl) as [B1 B2].
  split; [exact B1 | split; [exact B2 | split; [exact (L eq_refl) | exact (A eq_refl)]]].
Defined.

End ResolverFacts.

(* ------------------------------------------------------------------ *)
(** ** Properties of the local pipeline and of the broker client *)

Module PipelineFacts.

Import Generator Pipeline Doubles.

(** [trim_start] leaves nothing exactly when every character is white
    space. *)
Lemma trim_start_nil_iff (s : jsstring) :
  trim_start s = [] <-> forallb is_js_whitespace s = true.
Proof.
  induction s as [|c s IH]; cbn [trim_start forallb]; [tauto|].
  destruct (is_js_whitespace c); cbn [andb]; [exact IH|].
  split; discriminate.
Qed.

Lemma forallb_trim_start (s : jsstring) :
  forallb is_js_whitespace (trim_start s) = true
  <-> forallb is_js_whitespace s = true.
Proof.
  induction s as [|c s IH]; cbn [trim_start]; [tauto|].
  destruct (is_js_whitespace c) eqn:Hc; [|tauto].
  cbn [forallb]. rewrite Hc. exact IH.
Qed.

Lemma forallb_rev_iff (s : jsstring) :
  forallb is_js_whitespace (rev s) = true <-> forallb is_js_whitespace s = true.
Proof.
  rewrite !forallb_forall. split; intros H x Hx; apply H.
  - now apply in_rev in Hx.
  - now apply in_rev.
Qed.

(** A string is empty after trimming exactly when it is empty or consists
    of white space only. *)
Lemma js_trim_nil_iff (s : jsstring) :
  js_trim s = [] <-> forallb is_js_whitespace s = true.
Proof.
  unfold js_trim, trim_end.
  rewrite <- forallb_trim_start, <- forallb_rev_iff, <- trim_start_nil_iff.
  split; intro H.
  - apply (f_equal (@rev N)) in H. now rewrite rev_involutive in H.
  - now rewrite H.
Qed.

(** When [response.choices[0].message.content] evaluates, the two guards of
    [generateDescription] pass. *)
Lemma first_choice_content_guards (response v : Js) :
  OpenAIClient.first_choice_content response = Ok v ->
  exists choices choice,
    get response (js "choices") = Ok choices /\ truthy choices = true
    /\ get0 choices = Ok choice /\ truthy choice = true.
Proof.
  unfold OpenAIClient.first_choice_content. intro H.
  destruct (get response (js "choices")) as [choices|] eqn:Hc; [|discriminate].
  destruct (get0 choices) as [choice|] eqn:H0; [|discriminate].
  destruct (get choice (js "message")) as [message|] eqn:Hm; [|discriminate].
  exists choices, choice.
  assert (Hchoice : truthy choice = true).
  { destruct choice; simpl in Hm; try discriminate; try reflexivity;
      inversion Hm; subst message; simpl in H; discriminate. }
  repeat split; try assumption.
  destruct choices as [| |b|n|s|items|props|name]; simpl in H0; try discriminate;
    try reflexivity;
    try (inversion H0; subst choice; discriminate).
  destruct s; [inversion H0; subst choice; discriminate | reflexivity].
Qed.

(** A blank first-choice content is the empty-description error. *)
Lemma parse_description_blank (response : Js) (content : jsstring) :
  OpenAIClient.first_choice_content response = Ok (Str content) ->
  js_trim content = [] ->
  OpenAIClient.parse_description response
  = Throw (Error OpenAIClient.msg_empty_description).
Proof.
  intros H T.
  destruct (first_choice_content_guards _ _ H) as (choices & choice & Hc & Tc & H0 & T0).
  unfold OpenAIClient.parse_description.
  rewrite Hc, Tc. cbn [negb]. rewrite H0, T0. cbn [negb]. rewrite H.
  destruct content as [|c content].
  - reflexivity.
  - unfold js_or. cbn [truthy call_trim]. rewrite T. reflexivity.
Qed.

Section WithPlatform.

Context {P : Platform}.

Lemma throw_api_error_world (A : Type) (response : Response) (w : World) :
  snd (OpenAIClient.throw_api_error (A := A) response w) = w.
Proof.
  unfold OpenAIClient.throw_api_error, bind, try_catch, json, lift, ret, throw.
  destruct (json_body response) as [v|]; cbn.
  - destruct (get v _); reflexivity.
  - reflexivity.
Qed.

Lemma json_world (r : Response) (w : World) : snd (json r w) = w.
Proof. unfold json, ret, throw. destruct (json_body r); reflexivity. Qed.

(** Each transport method issues exactly its one request. *)
Lemma chat_completion_world (apiKey : jsstring) (params : Js) (w : World) :
  snd (OpenAIClient._chatCompletion apiKey params w)
  = sent (OpenAIClient.chat_request apiKey params) w.
Proof.
  unfold OpenAIClient._chatCompletion, bind, fetch.
  destruct (respond _ _) as [r|e]; [|reflexivity].
  destruct (ok r); cbn [negb].
  - apply json_world.
  - apply throw_api_error_world.
Qed.

Lemma image_generation_world (apiKey : jsstring) (params : Js) (w : World) :
  snd (OpenAIClient._imageGeneration apiKey params w)
  = sent (OpenAIClient.generation_request apiKey params) w.
Proof.
  unfold OpenAIClient._imageGeneration, bind, fetch.
  destruct (respond _ _) as [r|e]; [|reflexivity].
  destruct (ok r); cbn [negb].
  - apply json_world.
  - apply throw_api_error_world.
Qed.

Lemma attempt_world (apiKey : jsstring) (refs : list jsstring) (d : Js) (w : World) :
  snd (OpenAIClient.reference_description_attempt apiKey refs d w)
  = sent (OpenAIClient.chat_request apiKey
            (OpenAIClient.reference_description_params refs)) w.
Proof.
  unfold OpenAIClient.reference_description_attempt, bind.
  pose proof (chat_completion_world apiKey
                (OpenAIClient.reference_description_params refs) w) as Hw.
  destruct (OpenAIClient._chatCompletion _ _ w) as [[r|e] w1]; cbn in Hw; subst w1.
  - unfold lift, ret. destruct (OpenAIClient.first_choice_content r); reflexivity.
  - reflexivity.
Qed.

(** The first part of [generateDescription] always yields a value: it never
    throws, and it issues at most the one describe call. *)
Lemma describe_reference_images_total (apiKey : jsstring)
    (refs : list jsstring) (w : World) :
  exists d w',
    OpenAIClient.describe_reference_images apiKey refs w = (Ok d, w')
    /\ requests w' = requests w ++ describe_calls apiKey refs.
Proof.
  unfold OpenAIClient.describe_reference_images.
  destruct refs as [|r refs].
  - exists (Str OpenAIClient.no_reference_images), w. split; [reflexivity|].
    cbn. now rewrite app_nil_r.
  - unfold try_catch.
    pose proof (attempt_world apiKey (r :: refs)
                  (Str OpenAIClient.no_reference_images) w) as Hw.
    destruct (OpenAIClient.reference_description_attempt _ _ _ w) as [[d|e] w1];
      cbn in Hw; subst w1.
    + eexists _, _. split; reflexivity.
    + eexists _, _. split; reflexivity.
Qed.

Lemma issued_app (w w' : World) (new : list Request) :
  requests w' = requests w ++ new -> issued w w' = new.
Proof.
  intro H. unfold issued. rewrite H, skipn_app, skipn_all, Nat.sub_diag.
  reflexivity.
Qed.

(** [getDescription], called as in the local branch, is the client's
    [generateDescription] on [local_description_params]. *)
Lemma getDescription_local (g : ImageGenerator) (apiKey : jsstring)
    (f : FormData) (refs : list jsstring) :
  getDescription g apiKey (text f) (js_or (Str (form_prompt f)) Null) refs
  = OpenAIClient.generateDescription apiKey (local_description_params g f refs).
Proof.
  unfold getDescription, local_description_params, effective_context.
  destruct (form_prompt f); reflexivity.
Qed.

(** C4.  In a run of the local pipeline, if the refinement call returns a
    response whose first-choice content is a string that is empty after
    trimming (by [js_trim_nil_iff]: empty, or white space only), the run
    throws the error "Parsed description is empty." and none of the
    requests it has issued is an image-synthesis call. *)
Theorem blank_description_aborts
    (s : Settings) (f : FormData) (refs : list jsstring) (g : ImageGenerator)
    (w0 w1 w2 : World) (imageDescription response : Js) (content : jsstring) :
  createGenerator (generation_type f) = Ok g ->
  OpenAIClient.describe_reference_images (openaiApiKey s) refs (at_step1 w0)
  = (Ok imageDescription, w1) ->
  OpenAIClient._chatCompletion (openaiApiKey s)
    (OpenAIClient.refinement_params (getSystemPrompt g) (text f)
       imageDescription (effective_context g f)) w1
  = (Ok response, w2) ->
  OpenAIClient.first_choice_content response = Ok (Str content) ->
  js_trim content = [] ->
  localGeneration s f refs w0
  = (Throw (Error OpenAIClient.msg_empty_description), w2)
  /\ (forall r, In r (issued w0 w2) -> is_synthesis_call r = false).
Proof.
  intros Hg H1 H2 Hc Ht. split.
  - unfold localGeneration, bind, lift. cbn [console_log]. rewrite Hg.
    cbn [notify]. rewrite getDescription_local.
    unfold OpenAIClient.generateDescription, bind.
    cbn [local_description_params OpenAIClient.description_referenceImages].
    unfold at_step1, noted, logged, notify, console_log in H1.
    cbn [snd] in H1. rewrite H1.
    unfold OpenAIClient.refine_description, bind, local_description_params.
    cbn [OpenAIClient.systemPrompt OpenAIClient.userText OpenAIClient.contextPrompt].
    rewrite H2.
    unfold lift. rewrite (parse_description_blank _ _ Hc Ht). reflexivity.
  - destruct (describe_reference_images_total (openaiApiKey s) refs (at_step1 w0))
      as (d & w' & Hd & Hr).
    rewrite H1 in Hd. inversion Hd; subst d w'.
    pose proof (chat_completion_world (openaiApiKey s)
                  (OpenAIClient.refinement_params (getSystemPrompt g) (text f)
                     imageDescription (effective_context g f)) w1) as Hw.
    rewrite H2 in Hw. cbn [snd] in Hw.
    assert (Hreq : requests w2
                   = requests w0
                     ++ (describe_calls (openaiApiKey s) refs
                         ++ [OpenAIClient.chat_request (openaiApiKey s)
                               (OpenAIClient.refinement_params (getSystemPrompt g)
                                  (text f) imageDescription (effective_context g f))])).
    { rewrite Hw. cbn [sent requests]. rewrite Hr.
      cbn [at_step1 noted logged notify console_log snd requests].
      now rewrite app_assoc. }
    rewrite (issued_app _ _ _ Hreq).
    intros r Hin. apply in_app_or in Hin as [Hin|Hin].
    + destruct refs; cbn in Hin; [contradiction|].
      destruct Hin as [<-|[]]. reflexivity.
    + destruct Hin as [<-|[]]. reflexivity.
Qed.

(** C5.  The reference-image description step never throws.  In a run of the
    local pipeline with a non-empty reference list, when the describe call
    of that step (or the reading of its response) throws, the step logs the
    failure with [console.warn], yields the sentinel "No reference images
    provided.", and the run returns the refined description and the image
    whenever the refinement step, run with the sentinel, and the synthesis
    step succeed. *)
Theorem reference_description_failure_isolated
    (s : Settings) (f : FormData) (refs : list jsstring) (g : ImageGenerator)
    (w0 w1 : World) (err : Exn) :
  refs <> [] ->
  createGenerator (generation_type f) = Ok g ->
  OpenAIClient.reference_description_attempt (openaiApiKey s) refs
    (Str OpenAIClient.no_reference_images) (at_step1 w0)
  = (Throw err, w1) ->
  let w1' := warned OpenAIClient.msg_describe_failed err w1 in
  (forall w, exists d w',
      OpenAIClient.describe_reference_images (openaiApiKey s) refs w = (Ok d, w'))
  /\ OpenAIClient.describe_reference_images (openaiApiKey s) refs (at_step1 w0)
     = (Ok (Str OpenAIClient.no_reference_images), w1')
  /\ console w1' = console w1 ++ [Warn OpenAIClient.msg_describe_failed err]
  /\ (forall (refined : jsstring) (w2 : World) (image : Blob) (w3 : World),
         OpenAIClient.refine_description (openaiApiKey s)
           (local_description_params g f refs)
           (Str OpenAIClient.no_reference_images) w1'
         = (Ok refined, w2) ->
         generateImage g (openaiApiKey s) (local_image_args s f refs refined)
           (at_step2 refined w2)
         = (Ok image, w3) ->
         localGeneration s f refs w0 = (Ok (refined, image), w3)).
Proof.
  intros Hne Hg Hfail w1'.
  assert (Hstep : OpenAIClient.describe_reference_images (openaiApiKey s) refs
                    (at_step1 w0)
                  = (Ok (Str OpenAIClient.no_reference_images), w1')).
  { unfold OpenAIClient.describe_reference_images.
    destruct refs as [|r refs]; [contradiction|].
    unfold try_catch. rewrite Hfail. reflexivity. }
  split; [|split; [|split]].
  - intro w.
    destruct (describe_reference_images_total (openaiApiKey s) refs w)
      as (d & w' & Hd & _).
    exists d, w'. exact Hd.
  - exact Hstep.
  - reflexivity.
  - intros refined w2 image w3 Hrefine Himage.
    unfold localGeneration, bind, lift. cbn [console_log]. rewrite Hg.
    cbn [notify]. rewrite getDescription_local.
    unfold OpenAIClient.generateDescription, bind.
    cbn [local_description_params OpenAIClient.description_referenceImages].
    unfold at_step1, noted, logged, notify, console_log in Hstep.
    cbn [snd] in Hstep. rewrite Hstep.
    fold (local_description_params g f refs). rewrite Hrefine.
    unfold at_step2, noted, logged, notify, console_log in Himage.
    cbn [snd] in Himage.
    cbn [console_log notify]. rewrite Himage. reflexivity.
Qed.

(** The loop of [_imageEdit] builds one PNG file part per reference image. *)
Lemma reference_parts_shape (refs : list jsstring) :
  forall (i : nat) (parts : list FormPart),
    OpenAIClient.reference_parts i refs = Ok parts ->
    List.length parts = List.length refs /\ Forall is_png_image_part parts.
Proof.
  induction refs as [|r refs IH]; intros i parts H; cbn in H.
  - inversion H. split; [reflexivity | constructor].
  - destruct (OpenAIClient.decode_base64 _) as [bytes|]; [|discriminate].
    destruct (OpenAIClient.reference_parts (S i) refs) as [rest|] eqn:Hrest;
      [|discriminate].
    inversion H; subst parts. destruct (IH _ _ Hrest) as [Hlen Hall].
    split; [cbn; now rewrite Hlen|].
    constructor; [split; reflexivity | exact Hall].
Qed.

(** The loop of [_imageEdit] completes when [atob] accepts the payload of
    every reference image. *)
Lemma reference_parts_succeeds (refs : list jsstring) :
  (forall base64Image, In base64Image refs ->
                       atob (after_comma_or_self base64Image) <> None) ->
  forall i : nat, exists parts, OpenAIClient.reference_parts i refs = Ok parts.
Proof.
  induction refs as [|r refs IH]; intros Hall i; cbn [OpenAIClient.reference_parts].
  - eexists. reflexivity.
  - unfold OpenAIClient.decode_base64.
    destruct (atob (after_comma_or_self r)) as [binary|] eqn:Hr.
    + destruct (IH (fun b Hb => Hall b (or_intror Hb)) (S i)) as [rest ->].
      eexists. reflexivity.
    + exfalso. exact (Hall r (or_introl eq_refl) Hr).
Qed.

Lemma binary_parts_of_files (parts : list FormPart) :
  Forall is_png_image_part parts ->
  List.length (flat_map (fun part => match part with
                                     | File name content _ => [(name, content)]
                                     | Field _ _ => []
                                     end) parts) = List.length parts
  /\ Forall (fun part => fst part = js "image"
                         /\ blob_type (snd part) = OpenAIClient.image_png)
       (flat_map (fun part => match part with
                              | File name content _ => [(name, content)]
                              | Field _ _ => []
                              end) parts).
Proof.
  induction 1 as [|part parts Hpart _ [IHlen IHall]]; cbn.
  - split; [reflexivity | constructor].
  - destruct part as [|name content filename]; [contradiction|].
    cbn. split; [now rewrite IHlen|].
    constructor; [exact Hpart | exact IHall].
Qed.

Lemma image_edit_world (apiKey : jsstring) (p : OpenAIClient.ImageParams) (w : World) :
  requests (snd (OpenAIClient._imageEdit apiKey p w))
  = requests w
    ++ match OpenAIClient.reference_parts 0 (OpenAIClient.referenceImages p) with
       | Ok parts => [OpenAIClient.edit_request apiKey p parts]
       | Throw _ => []
       end.
Proof.
  unfold OpenAIClient._imageEdit, bind, lift, fetch.
  destruct (OpenAIClient.reference_parts 0 _) as [parts|e]; cbn [snd].
  - destruct (respond _ _) as [r|e]; [|reflexivity].
    destruct (ok r); cbn [negb].
    + pose proof (json_world r (sent (OpenAIClient.edit_request apiKey p parts) w)) as Hj.
      destruct (json r _) as [[v|e] w1]; cbn in Hj; subst w1; [|reflexivity].
      destruct (OpenAIClient.parse_image v); reflexivity.
    + now rewrite throw_api_error_world.
  - now rewrite app_nil_r.
Qed.

(** [OpenAIClient.generateImage] issues exactly [synthesis_calls]. *)
Lemma generateImage_world (apiKey : jsstring) (p : OpenAIClient.ImageParams) (w : World) :
  requests (snd (OpenAIClient.generateImage apiKey p w))
  = requests w ++ synthesis_calls apiKey p.
Proof.
  unfold OpenAIClient.generateImage, synthesis_calls.
  destruct (OpenAIClient.referenceImages p) as [|r refs] eqn:Hrefs.
  - unfold bind.
    pose proof (image_generation_world apiKey (OpenAIClient.generation_params p) w) as Hw.
    destruct (OpenAIClient._imageGeneration _ _ w) as [[v|e] w1]; cbn in Hw; subst w1.
    + unfold lift. reflexivity.
    + reflexivity.
  - rewrite image_edit_world, Hrefs. reflexivity.
Qed.

(** C6.  The requests issued by a direct image-synthesis call.  With an
    empty reference list there is exactly one request, a JSON body with
    [n] equal to 1, no [image] property and no binary part.  With a
    non-empty list of reference images whose payloads [atob] accepts there
    is exactly one request: to the edits endpoint, with a multipart form,
    not a JSON body, holding the six text fields followed by one binary
    part per reference image, each a field [image] of type image/png, and
    the field [n] equal to "1".  With any non-empty list there is at most
    one request, and it has that shape. *)
Theorem synthesis_request_shape
    (apiKey : jsstring) (p : OpenAIClient.ImageParams) (w : World) :
  let w' := snd (OpenAIClient.generateImage apiKey p w) in
  (OpenAIClient.referenceImages p = [] ->
   exists r,
     issued w w' = [r]
     /\ url r = OpenAIClient.images_generations_url
     /\ body r = JsonBody (OpenAIClient.generation_params p)
     /\ get_opt (OpenAIClient.generation_params p) (js "image") = Undefined
     /\ binary_parts r = []
     /\ payload_n r = Some (Num 1))
  /\ (OpenAIClient.referenceImages p <> [] ->
      (forall base64Image,
          In base64Image (OpenAIClient.referenceImages p) ->
          atob (after_comma_or_self base64Image) <> None) ->
      exists r parts,
        issued w w' = [r]
        /\ url r = OpenAIClient.images_edits_url
        /\ body r = FormBody (OpenAIClient.edit_fields p ++ parts)
        /\ List.length (binary_parts r)
           = List.length (OpenAIClient.referenceImages p)
        /\ Forall (fun part => fst part = js "image"
                               /\ blob_type (snd part) = OpenAIClient.image_png)
             (binary_parts r)
        /\ payload_n r = Some (Str (js "1")))
  /\ (OpenAIClient.referenceImages p <> [] ->
      (List.length (issued w w') <= 1)%nat
      /\ (forall parts,
             OpenAIClient.reference_parts 0 (OpenAIClient.referenceImages p) = Ok parts ->
             issued w w' = [OpenAIClient.edit_request apiKey p parts])
      /\ (forall r, In r (issued w w') ->
             url r = OpenAIClient.images_edits_url
             /\ (exists parts, body r = FormBody parts)
             /\ List.length (binary_parts r)
                = List.length (OpenAIClient.referenceImages p)
             /\ Forall (fun part => fst part = js "image"
                                    /\ blob_type (snd part) = OpenAIClient.image_png)
                  (binary_parts r)
             /\ payload_n r = Some (Str (js "1")))).
Proof.
  intro w'. subst w'.
  rewrite (issued_app _ _ _ (generateImage_world apiKey p w)).
  unfold synthesis_calls. split; [|split].
  - intro Hrefs. rewrite Hrefs.
    eexists. repeat split.
  - intros Hne Hdecode.
    destruct (reference_parts_succeeds _ Hdecode 0) as [parts Hparts].
    destruct (OpenAIClient.referenceImages p) as [|r0 refs] eqn:Hrefs;
      [contradiction|].
    rewrite Hparts.
    destruct (reference_parts_shape _ _ _ Hparts) as [Hlen Hall].
    destruct (binary_parts_of_files _ Hall) as [Blen Ball].
    exists (OpenAIClient.edit_request apiKey p parts), parts.
    split; [reflexivity|]. split; [reflexivity|]. split; [reflexivity|].
    unfold binary_parts. cbn [body OpenAIClient.edit_request].
    rewrite flat_map_app. cbn [OpenAIClient.edit_fields flat_map app].
    split; [now rewrite Blen, Hlen|]. split; [exact Ball|].
    reflexivity.
  - intro Hne.
    destruct (OpenAIClient.referenceImages p) as [|r0 refs] eqn:Hrefs;
      [contradiction|].
    destruct (OpenAIClient.reference_parts 0 (r0 :: refs)) as [parts|e] eqn:Hparts.
    + split; [cbn; lia|]. split.
      * intros parts' Heq. inversion Heq. reflexivity.
      * intros r [<-|[]].
        destruct (reference_parts_shape _ _ _ Hparts) as [Hlen Hall].
        destruct (binary_parts_of_files _ Hall) as [Blen Ball].
        split; [reflexivity|]. split; [eexists; reflexivity|].
        unfold binary_parts. cbn [body OpenAIClient.edit_request].
        rewrite flat_map_app. cbn [OpenAIClient.edit_fields flat_map app].
        split; [now rewrite Blen, Hlen|]. split; [exact Ball|].
        reflexivity.
    + split; [cbn; lia|]. split.
      * intros parts' Heq. discriminate.
      * intros r [].
Qed.

(** [ImageGenerator.generateImage] issues the client's requests and no
    other. *)
Lemma generator_generateImage_world (g : ImageGenerator) (apiKey : jsstring)
    (a : GenerateImageArgs) (w : World) :
  requests (snd (generateImage g apiKey a w))
  = requests w ++ synthesis_calls apiKey (client_image_params g a).
Proof.
  unfold generateImage, bind.
  pose proof (generateImage_world apiKey (client_image_params g a) w) as Hw.
  destruct (OpenAIClient.generateImage _ _ w) as [[v|e] w1]; cbn [snd] in *.
  - unfold lift, ret.
    destruct (OpenAIClient.decode_base64 (ToString v)); exact Hw.
  - exact Hw.
Qed.

(** Outside the table: an unknown ratio falls back to the square size, a
    name inherited from [Object.prototype] yields the inherited value. *)
Example unknown_ratio_is_square :
  _mapAspectRatioToSize (js "panorama") = Str (js "1024x1024").
Proof. reflexivity. Qed.

Example inherited_name_is_not_a_size :
  _mapAspectRatioToSize (js "toString") = Builtin (js "toString").
Proof. reflexivity. Qed.

Example unknown_generator_type :
  createGenerator (js "vehicle")
  = Throw (Error (js "Unknown generator type: vehicle")).
Proof. reflexivity. Qed.

Lemma map_aspect_ratio_table (ratio size : jsstring) :
  In (ratio, size) spec_size_table -> _mapAspectRatioToSize ratio = Str size.
Proof.
  intros [H|[H|[H|[]]]]; inversion H; reflexivity.
Qed.

(** C7.  For every generator (subject kind) and every entry of the size
    table (square, landscape, portrait), [_mapAspectRatioToSize] yields the
    entry's size and every synthesis request issued by
    [ImageGenerator.generateImage] carries that size; without reference
    images exactly one such request is issued. *)
Theorem aspect_ratio_determines_size
    (g : ImageGenerator) (apiKey : jsstring) (a : GenerateImageArgs) (w : World)
    (size : jsstring) :
  In (aspectRatio a, size) spec_size_table ->
  let w' := snd (generateImage g apiKey a w) in
  _mapAspectRatioToSize (aspectRatio a) = Str size
  /\ (forall r, In r (issued w w') ->
        is_synthesis_call r = true /\ payload_size r = Some size)
  /\ (arg_referenceImages a = [] -> exists r, issued w w' = [r]).
Proof.
  intros Hin w'. subst w'.
  pose proof (map_aspect_ratio_table _ _ Hin) as Hsize.
  rewrite (issued_app _ _ _ (generator_generateImage_world g apiKey a w)).
  unfold synthesis_calls.
  cbn [client_image_params OpenAIClient.referenceImages].
  split; [exact Hsize|]. split.
  - intros r Hr.
    destruct (arg_referenceImages a) as [|r0 refs].
    + destruct Hr as [<-|[]]. split; [reflexivity|].
      unfold payload_size. cbn. rewrite Hsize. reflexivity.
    + destruct (OpenAIClient.reference_parts 0 (r0 :: refs)) as [parts|e];
        [|contradiction].
      destruct Hr as [<-|[]]. split; [reflexivity|].
      unfold payload_size. cbn. rewrite Hsize. reflexivity.
  - intro Hrefs. rewrite Hrefs. eexists. reflexivity.
Qed.

(** C10.  [getDescription] called with an empty-string prompt behaves as
    when called with [null]; with any falsy prompt it is the client's
    [generateDescription] with the generator's default context prompt. *)
Theorem falsy_prompt_means_default
    (g : ImageGenerator) (apiKey text : jsstring) (refs : list jsstring) :
  getDescription g apiKey text (Str []) refs = getDescription g apiKey text Null refs
  /\ (forall prompt : Js,
         truthy prompt = false ->
         getDescription g apiKey text prompt refs
         = OpenAIClient.generateDescription apiKey
             {| OpenAIClient.systemPrompt := getSystemPrompt g;
                OpenAIClient.userText := text;
                OpenAIClient.contextPrompt := Str (getDefaultContextPrompt g);
                OpenAIClient.description_referenceImages := refs |}).
Proof.
  split; [reflexivity|].
  intros prompt Hfalsy. unfold getDescription, js_or.
  destruct prompt; try discriminate Hfalsy; cbn [truthy] in *;
    try rewrite Hfalsy; try reflexivity.
Qed.

Lemma surfaced_message_present (m fallback : jsstring) :
  m <> [] -> surfaced_message (Str m) fallback = m.
Proof.
  intro H. unfold surfaced_message, js_or.
  destruct m; [contradiction | reflexivity].
Qed.

Lemma surfaced_message_absent (message : Js) (fallback : jsstring) :
  truthy message = false -> surfaced_message message fallback = fallback.
Proof.
  intro H. unfold surfaced_message, js_or. now rewrite H.
Qed.

(** What [generate] throws on a response that is not ok. *)
Lemma generate_refused (s : Settings) (params : Js) (w : World)
    (response : Response) (data discriminant message : Js) :
  truthy (getToken s) = true ->
  respond (requests w) (generate_request (getToken s) params) = Resolves response ->
  ok response = false ->
  json_body response = Some data ->
  get data (js "error") = Ok discriminant ->
  get data (js "message") = Ok message ->
  generate s params w
  = (Throw (Error (surfaced_message message
                     (if strict_eq_str discriminant (js "subscription_required")
                      then msg_subscription_required
                      else if strict_eq_str discriminant (js "quota_exceeded")
                           then msg_quota_exceeded
                           else msg_generation_failed))),
     sent (generate_request (getToken s) params) w).
Proof.
  intros Ht Hr Hok Hbody He Hm.
  unfold generate. rewrite Ht. cbn [negb].
  unfold bind, fetch. rewrite Hr. unfold json. rewrite Hbody. unfold ret.
  rewrite Hok. cbn [negb]. unfold lift. rewrite He.
  unfold throw_message, bind, lift, throw.
  destruct (strict_eq_str discriminant (js "subscription_required"));
    [now rewrite Hm|].
  destruct (strict_eq_str discriminant (js "quota_exceeded")); now rewrite Hm.
Qed.

(** C8 (as amended).  On a response that is not ok, [generate] throws an
    [Error] whose message is the server's message when one is provided and
    otherwise a fixed fallback: "Weekly quota exceeded" for the discriminant
    quota_exceeded, "Subscription required for this feature" for
    subscription_required, "Generation failed" for any other.  The three
    cases throw the same class of error and differ only in the fallback. *)
Theorem broker_refusal_surfaces_message
    (s : Settings) (params : Js) (w : World)
    (response : Response) (data discriminant message : Js) :
  truthy (getToken s) = true ->
  respond (requests w) (generate_request (getToken s) params) = Resolves response ->
  ok response = false ->
  json_body response = Some data ->
  get data (js "error") = Ok discriminant ->
  get data (js "message") = Ok message ->
  let w' := sent (generate_request (getToken s) params) w in
  (discriminant = Str (js "quota_exceeded") ->
   generate s params w
   = (Throw (Error (surfaced_message message msg_quota_exceeded)), w'))
  /\ (discriminant = Str (js "subscription_required") ->
      generate s params w
      = (Throw (Error (surfaced_message message msg_subscription_required)), w'))
  /\ (strict_eq_str discriminant (js "quota_exceeded") = false ->
      strict_eq_str discriminant (js "subscription_required") = false ->
      generate s params w
      = (Throw (Error (surfaced_message message msg_generation_failed)), w'))
  /\ (forall (m fallback : jsstring),
         message = Str m -> m <> [] -> surfaced_message message fallback = m)
  /\ (forall fallback : jsstring,
         truthy message = false -> surfaced_message message fallback = fallback).
Proof.
  intros Ht Hr Hok Hbody He Hm w'.
  pose proof (generate_refused s params w response data discriminant message
                Ht Hr Hok Hbody He Hm) as H.
  split; [|split; [|split; [|split]]].
  - intros ->. exact H.
  - intros ->. exact H.
  - intros Hq Hs. rewrite Hq, Hs in H. exact H.
  - intros m fallback -> Hne. now apply surfaced_message_present.
  - intros fallback Hf. now apply surfaced_message_absent.
Qed.

End WithPlatform.

(** The witnesses below run the model on the test doubles. *)

Lemma blank_description_aborts_witness :
  fst (localGeneration (P := double blank_server) unlinked_with_key scene_form []
         initial_world)
  = Throw (Error OpenAIClient.msg_empty_description).
Proof.
  refine (f_equal fst
            (proj1 (@blank_description_aborts (double blank_server)
                      unlinked_with_key scene_form [] SceneImageGenerator
                      initial_world _ _ _ _ [32; 10; 9]%N
                      eq_refl eq_refl eq_refl eq_refl eq_refl))).
Defined.

Lemma reference_description_failure_isolated_witness :
  exists (refined : jsstring) (image : Blob),
    fst (localGeneration (P := double first_call_fails) unlinked_with_key
           character_form one_reference initial_world)
    = Ok (refined, image).
Proof.
  eexists _, _.
  refine (f_equal fst
            (proj2 (proj2 (proj2
               (@reference_description_failure_isolated (double first_call_fails)
                  unlinked_with_key character_form one_reference
                  CharacterImageGenerator initial_world _
                  (FetchFailure (js "Failed to fetch")) _ eq_refl eq_refl)))
               _ _ _ _ eq_refl eq_refl)).
  discriminate.
Defined.

Lemma synthesis_request_shape_witness :
  (exists r,
      issued initial_world
        (snd (OpenAIClient.generateImage (P := double healthy_server) (js "key")
                (square_params []) initial_world)) = [r]
      /\ binary_parts r = [])
  /\ (exists r,
         issued initial_world
           (snd (OpenAIClient.generateImage (P := double healthy_server)
                   (js "key") (square_params five_references) initial_world)) = [r]
         /\ url r = OpenAIClient.images_edits_url
         /\ List.length (binary_parts r) = 5%nat
         /\ payload_n r = Some (Str (js "1"))).
Proof.
  split.
  - destruct (proj1 (@synthesis_request_shape (double healthy_server) (js "key")
                       (square_params []) initial_world) eq_refl)
      as (r & Hr & _ & _ & _ & Hb & _).
    exists r. split; assumption.
  - destruct (proj1 (proj2 (@synthesis_request_shape (double healthy_server) (js "key")
                              (square_params five_references) initial_world)))
      as (r & parts & Hr & Hurl & _ & Hlen & _ & Hn).
    + discriminate.
    + intros base64Image _. discriminate.
    + exists r. split; [exact Hr|]. split; [exact Hurl|].
      split; [exact Hlen | exact Hn].
Defined.

Lemma aspect_ratio_determines_size_witness :
  map payload_size
    (issued initial_world
       (snd (generateImage (P := double healthy_server) SceneImageGenerator (js "key")
               (local_image_args unlinked_with_key scene_form [] (js "a harbour"))
               initial_world)))
  = [Some (js "1536x1024")].
Proof.
  assert (Hin : In (aspectRatio (local_image_args unlinked_with_key scene_form []
                                   (js "a harbour")), js "1536x1024")
                  spec_size_table)
    by (right; left; reflexivity).
  destruct (@aspect_ratio_determines_size (double healthy_server)
              SceneImageGenerator (js "key")
              (local_image_args unlinked_with_key scene_form [] (js "a harbour"))
              initial_world (js "1536x1024") Hin)
    as (_ & Hall & Hone).
  destruct (Hone eq_refl) as [r Hr].
  rewrite Hr in Hall |- *. cbn [map].
  now rewrite (proj2 (Hall r (or_introl eq_refl))).
Defined.

Lemma falsy_prompt_means_default_witness :
  getDescription (P := double healthy_server) ItemImageGenerator (js "key")
    (js "a brass lantern") (Bool false) []
  = OpenAIClient.generateDescription (P := double healthy_server) (js "key")
      {| OpenAIClient.systemPrompt := getSystemPrompt ItemImageGenerator;
         OpenAIClient.userText := js "a brass lantern";
         OpenAIClient.contextPrompt := Str (getDefaultContextPrompt ItemImageGenerator);
         OpenAIClient.description_referenceImages := [] |}.
Proof.
  exact (proj2 (@falsy_prompt_means_default (double healthy_server)
                  ItemImageGenerator (js "key") (js "a brass lantern") [])
           (Bool false) eq_refl).
Defined.

Lemma broker_refusal_surfaces_message_witness :
  fst (generate (P := double (refusing_broker (js "quota_exceeded")
                               (Str (js "Limit reached"))))
         linked_alchemist Null initial_world)
  = Throw (Error (js "Limit reached")).
Proof.
  refine (f_equal fst
            (proj1 (@broker_refusal_surfaces_message
                      (double (refusing_broker (js "quota_exceeded")
                                 (Str (js "Limit reached"))))
                      linked_alchemist Null initial_world _ _
                      (Str (js "quota_exceeded")) (Str (js "Limit reached"))
                      eq_refl eq_refl eq_refl eq_refl eq_refl eq_refl)
               eq_refl)).
Defined.

(** C8, counterexample.  A refusal with discriminant quota_exceeded and a
    refusal with another discriminant, both carrying the message "Limit
    reached", make [generate] throw the same value: the quota error is not
    distinguished from the generic failure.  And a response with status ok
    whose body carries the discriminant quota_exceeded raises no error at
    all: the body is returned. *)
Lemma quota_error_not_distinguished :
  fst (generate (P := double (refusing_broker (js "quota_exceeded")
                               (Str (js "Limit reached"))))
         linked_alchemist Null initial_world)
  = Throw (Error (js "Limit reached"))
  /\ fst (generate (P := double (refusing_broker (js "internal_error")
                                  (Str (js "Limit reached"))))
            linked_alchemist Null initial_world)
     = Throw (Error (js "Limit reached"))
  /\ fst (generate (P := double accepting_broker) linked_alchemist Null initial_world)
     = Ok (Obj [(js "error", Str (js "quota_exceeded"));
                (js "message", Str (js "Limit reached"))]).
Proof. repeat split. Qed.

(** C3, counterexample.  A run of the local pipeline on five reference
    images is not rejected: it returns a result after issuing a describe
    call, a refinement call and an edit call with five binary parts. *)
Lemma five_reference_images_reach_the_network :
  let run := localGeneration (P := double healthy_server) unlinked_with_key
               character_form five_references initial_world in
  List.length five_references = 5%nat
  /\ (exists result, fst run = Ok result)
  /\ map url (requests (snd run))
     = [OpenAIClient.chat_completions_url; OpenAIClient.chat_completions_url;
        OpenAIClient.images_edits_url]
  /\ map (fun r => List.length (binary_parts r)) (requests (snd run))
     = [0; 0; 5]%nat.
Proof.
  cbv zeta. split; [reflexivity|]. split; [eexists; vm_compute; reflexivity|].
  split; vm_compute; reflexivity.
Qed.

End PipelineFacts.

(* ------------------------------------------------------------------ *)
(** ** Properties of the dialog's reference-image list *)

Module DialogFacts.

Import Dialog Doubles.

Lemma splice1_length (index : nat) (refs : list jsstring) :
  (List.length (splice1 index refs) <= List.length refs)%nat.
Proof.
  revert index. induction refs as [|r refs IH]; intros [|i]; cbn; try lia.
  specialize (IH i). lia.
Qed.

Lemma step_keeps_cap (refs : list jsstring) (a : Action) :
  (List.length refs <= 4)%nat -> (List.length (step refs a) <= 4)%nat.
Proof.
  intro H. destruct a as [path|index]; cbn [step].
  - unfold pick_callback.
    destruct (Nat.ltb (List.length refs) 4) eqn:Hlt; cbn [fst].
    + apply Nat.ltb_lt in Hlt. rewrite length_app. cbn. lia.
    + exact H.
  - pose proof (splice1_length index refs). lia.
Qed.

Lemma push_src_keeps_cap (refs : list jsstring) (src : Js) :
  (List.length refs <= 4)%nat -> (List.length (push_src refs src) <= 4)%nat.
Proof.
  intro H. unfold push_src.
  destruct (Nat.ltb (List.length refs) 4) eqn:Hlt; [|exact H].
  apply Nat.ltb_lt in Hlt.
  destruct src as [| | | |[|c rest]| | |]; try exact H.
  rewrite length_app. cbn. lia.
Qed.

Lemma scan_page_keeps_cap (page : list Js) :
  forall refs : list jsstring,
    (List.length refs <= 4)%nat -> (List.length (scan_page refs page) <= 4)%nat.
Proof.
  intros refs H. unfold scan_page.
  destruct (Nat.ltb (List.length refs) 4); [|exact H].
  revert refs H. induction page as [|src page IH]; intros refs H; cbn [fold_left].
  - exact H.
  - apply IH. now apply push_src_keeps_cap.
Qed.

(** The lists the module's own entry points hand to the dialog hold at most
    four images. *)
Lemma journal_reference_images_cap (pages : list (list Js)) :
  (List.length (journal_reference_images pages) <= 4)%nat.
Proof.
  unfold journal_reference_images.
  assert (H : forall refs : list jsstring,
             (List.length refs <= 4)%nat ->
             (List.length (fold_left scan_page pages refs) <= 4)%nat).
  { induction pages as [|page pages IH]; intros refs H; cbn [fold_left].
    - exact H.
    - apply IH. now apply scan_page_keeps_cap. }
  apply H. cbn. lia.
Qed.

Lemma document_reference_images_cap (img : Js) (isPlaceholder : bool) :
  (List.length (document_reference_images img isPlaceholder) <= 4)%nat.
Proof.
  unfold document_reference_images.
  destruct img as [| | | |[|c rest]| | |]; try (cbn; lia).
  destruct isPlaceholder; cbn; lia.
Qed.

(** C3 (as amended).  The picker refuses a reference image when the list
    already holds four or more: the list is left unchanged and the warning
    "Maximum 4 reference images allowed" is shown; hence a list of at most
    four images stays within four under any sequence of picks and
    removals.  The list collected from a journal holds at most four
    images. *)
Theorem picker_caps_reference_images (path : jsstring) (refs : list jsstring) :
  ((4 <= List.length refs)%nat ->
   pick_callback path refs = (refs, [Warning msg_max_reference_images]))
  /\ ((List.length refs <= 4)%nat ->
      forall actions : list Action, (List.length (run actions refs) <= 4)%nat)
  /\ (forall (pages : list (list Js)) (actions : list Action),
         (List.length (run actions (journal_reference_images pages)) <= 4)%nat).
Proof.
  assert (Hrun : forall (actions : list Action) (l : list jsstring),
             (List.length l <= 4)%nat -> (List.length (run actions l) <= 4)%nat).
  { unfold run. induction actions as [|a actions IH]; intros l H; cbn [fold_left].
    - exact H.
    - apply IH. now apply step_keeps_cap. }
  split; [|split].
  - intro H. unfold pick_callback.
    destruct (Nat.ltb (List.length refs) 4) eqn:Hlt; [|reflexivity].
    apply Nat.ltb_lt in Hlt. lia.
  - intros H actions. now apply Hrun.
  - intros pages actions. apply Hrun. apply journal_reference_images_cap.
Qed.

Lemma picker_caps_reference_images_witness :
  pick_callback (js "worlds/art/fifth.png") (firstn 4 five_references)
  = (firstn 4 five_references, [Warning msg_max_reference_images])
  /\ (List.length (run [Pick (js "a.png"); Pick (js "b.png"); Remove 0;
                        Pick (js "c.png"); Pick (js "d.png")]
                     (firstn 3 five_references)) <= 4)%nat.
Proof.
  split.
  - apply (proj1 (picker_caps_reference_images (js "worlds/art/fifth.png")
                    (firstn 4 five_references))).
    cbn. lia.
  - apply (proj1 (proj2 (picker_caps_reference_images [] (firstn 3 five_references)))).
    cbn. lia.
Defined.

End DialogFacts.

(* ------------------------------------------------------------------ *)
(** ** Further properties: strings *)

Module StringFacts.

Lemma trim_start_idempotent (s : jsstring) : trim_start (trim_start s) = trim_start s.
Proof.
  induction s as [|c s IH]; cbn [trim_start]; [reflexivity|].
  destruct (is_js_whitespace c) eqn:Hc; [exact IH|].
  cbn [trim_start]. now rewrite Hc.
Qed.

Lemma trim_start_snoc (s : jsstring) (c : N) :
  is_js_whitespace c = false -> trim_start (s ++ [c]) = trim_start s ++ [c].
Proof.
  intro Hc. induction s as [|x s IH]; cbn [trim_start app].
  - now rewrite Hc.
  - destruct (is_js_whitespace x); [exact IH | reflexivity].
Qed.

Lemma trim_start_length (s : jsstring) :
  (List.length (trim_start s) <= List.length s)%nat.
Proof.
  induction s as [|c s IH]; cbn [trim_start]; [lia|].
  destruct (is_js_whitespace c); cbn [List.length]; lia.
Qed.

Lemma js_trim_length (s : jsstring) :
  (List.length (js_trim s) <= List.length s)%nat.
Proof.
  unfold js_trim, trim_end. rewrite length_rev.
  pose proof (trim_start_length (rev (trim_start s))) as H1.
  rewrite length_rev in H1.
  pose proof (trim_start_length s). lia.
Qed.

(** A string that starts with a character that is not white space keeps it
    under [trim_end]. *)
Lemma trim_end_cons (c : N) (s : jsstring) :
  is_js_whitespace c = false ->
  trim_end (c :: s) = c :: trim_end s.
Proof.
  intro Hc. unfold trim_end. cbn [rev].
  rewrite (trim_start_snoc _ _ Hc), rev_app_distr. reflexivity.
Qed.

Lemma trim_end_idempotent (s : jsstring) : trim_end (trim_end s) = trim_end s.
Proof.
  unfold trim_end. now rewrite rev_involutive, trim_start_idempotent.
Qed.

(** The trimmed text neither starts nor ends with white space: trimming it
    again changes nothing. *)
Lemma js_trim_idempotent (s : jsstring) : js_trim (js_trim s) = js_trim s.
Proof.
  unfold js_trim.
  assert (H : trim_start (trim_end (trim_start s)) = trim_end (trim_start s)).
  { pose proof (trim_start_idempotent s) as Hi.
    destruct (trim_start s) as [|c t] eqn:Ht; [reflexivity|].
    cbn [trim_start] in Hi.
    destruct (is_js_whitespace c) eqn:Hc.
    - pose proof (trim_start_length t) as Hlen.
      pose proof (trim_start_idempotent t) as Hi2.
      rewrite Hi in Hlen. cbn [List.length] in Hlen. lia.
    - rewrite (trim_end_cons _ _ Hc). cbn [trim_start]. now rewrite Hc. }
  rewrite H. apply trim_end_idempotent.
Qed.

End StringFacts.

(* ------------------------------------------------------------------ *)
(** ** Further properties: the clients *)

Module ClientFacts.

Import Generator Pipeline Doubles MoreDoubles Observations.

Section WithPlatform.

Context {P : Platform}.

(** X1.  Without a stored token [WizzlethorpeAPI.generate] throws "No
    Wizzlethorpe account linked" and issues no request. *)
Theorem generate_needs_token (s : Settings) (params : Js) (w : World) :
  wizzlethorpeToken s = [] ->
  generate s params w = (Throw (Error msg_not_linked), w).
Proof.
  intro H. unfold generate, getToken, js_or. rewrite H. reflexivity.
Qed.

(** What the [if (!response.ok)] block throws, by the body of the
    response. *)
Lemma throw_api_error_cases (A : Type) (response : Response) (w : World) :
  (json_body response = None ->
   OpenAIClient.throw_api_error (A := A) response w
   = (Throw (Error (js "OpenAI API error: " ++ statusText response)), w))
  /\ (forall data inner message,
         json_body response = Some data ->
         get data (js "error") = Ok inner ->
         get_opt inner (js "message") = Str message ->
         message <> [] ->
         OpenAIClient.throw_api_error (A := A) response w
         = (Throw (Error (js "OpenAI API error: " ++ message)), w))
  /\ (json_body response = Some Null ->
      OpenAIClient.throw_api_error (A := A) response w = (Throw TypeError, w)).
Proof.
  unfold OpenAIClient.throw_api_error, bind, try_catch, json, lift, ret, throw.
  split; [|split].
  - intros ->. cbn. unfold js_or. cbn.
    destruct (statusText response); reflexivity.
  - intros data inner message -> Hi Hm Hne. rewrite Hi, Hm.
    unfold js_or. destruct message; [contradiction | reflexivity].
  - intros ->. reflexivity.
Qed.

(** X2.  A chat call answered with a status that is not ok throws, after
    its one request: an [Error] "OpenAI API error: "
    followed by the provider's message when the body carries a non-empty
    [error.message], or by the status text when the body is not JSON; and a
    [TypeError] when the body is the JSON value [null]. *)
Theorem refused_call_reports_provider_message
    (apiKey : jsstring) (params : Js) (w : World) (response : Response) :
  ok response = false ->
  respond (requests w) (OpenAIClient.chat_request apiKey params) = Resolves response ->
  let w' := sent (OpenAIClient.chat_request apiKey params) w in
  (json_body response = None ->
   OpenAIClient._chatCompletion apiKey params w
   = (Throw (Error (js "OpenAI API error: " ++ statusText response)), w'))
  /\ (forall data inner message,
         json_body response = Some data ->
         get data (js "error") = Ok inner ->
         get_opt inner (js "message") = Str message ->
         message <> [] ->
         OpenAIClient._chatCompletion apiKey params w
         = (Throw (Error (js "OpenAI API error: " ++ message)), w'))
  /\ (json_body response = Some Null ->
      OpenAIClient._chatCompletion apiKey params w = (Throw TypeError, w')).
Proof.
  intros Hok Hr w'.
  destruct (throw_api_error_cases Js response w') as (H1 & H2 & H3).
  unfold OpenAIClient._chatCompletion, bind, fetch. rewrite Hr, Hok. cbn [negb].
  split; [exact H1 | split; [exact H2 | exact H3]].
Qed.

(** What [generateDescription] returns is the trimmed content of a first
    choice, and is not empty. *)
Lemma parse_description_ok (response : Js) (d : jsstring) :
  OpenAIClient.parse_description response = Ok d ->
  d <> [] /\ js_trim d = d.
Proof.
  unfold OpenAIClient.parse_description. intro H.
  destruct (get response (js "choices")) as [choices|]; [|discriminate].
  destruct (negb (truthy choices)); [discriminate|].
  destruct (get0 choices) as [choice|]; [|discriminate].
  destruct (negb (truthy choice)); [discriminate|].
  destruct (OpenAIClient.first_choice_content response) as [content|]; [|discriminate].
  destruct (call_trim (js_or content (Str []))) as [t|] eqn:Ht; [|discriminate].
  destruct (negb (truthy (Str t))) eqn:Hn; [discriminate|].
  inversion H; subst d. split.
  - destruct t; [discriminate Hn | discriminate].
  - unfold call_trim in Ht. destruct (js_or content (Str [])); try discriminate.
    inversion Ht. apply StringFacts.js_trim_idempotent.
Qed.

(** X3.  Whenever [generateDescription] returns, its text is not empty and
    neither starts nor ends with white space. *)
Theorem description_is_trimmed_and_not_empty
    (apiKey : jsstring) (p : OpenAIClient.DescriptionParams) (w w' : World)
    (d : jsstring) :
  OpenAIClient.generateDescription apiKey p w = (Ok d, w') ->
  d <> [] /\ js_trim d = d.
Proof.
  unfold OpenAIClient.generateDescription, OpenAIClient.refine_description, bind, lift.
  intro H.
  destruct (OpenAIClient.describe_reference_images _ _ w) as [[i|e] w1]; [|discriminate].
  destruct (OpenAIClient._chatCompletion _ _ w1) as [[r|e] w2]; [|discriminate].
  destruct (OpenAIClient.parse_description r) as [t|] eqn:Hp; [|discriminate].
  inversion H; subst d. now apply parse_description_ok with (response := r).
Qed.

(** X4.  When the refinement response has no [choices], or an empty
    [choices] array, [generateDescription] throws "No response from OpenAI
    API.". *)
Theorem missing_choices_is_no_response
    (apiKey : jsstring) (p : OpenAIClient.DescriptionParams) (w w1 w2 : World)
    (imageDescription response choices : Js) :
  OpenAIClient.describe_reference_images apiKey
    (OpenAIClient.description_referenceImages p) w = (Ok imageDescription, w1) ->
  OpenAIClient._chatCompletion apiKey
    (OpenAIClient.refinement_params (OpenAIClient.systemPrompt p)
       (OpenAIClient.userText p) imageDescription (OpenAIClient.contextPrompt p)) w1
  = (Ok response, w2) ->
  get response (js "choices") = Ok choices ->
  choices = Undefined \/ choices = Arr [] ->
  OpenAIClient.generateDescription apiKey p w
  = (Throw (Error OpenAIClient.msg_no_response), w2).
Proof.
  intros H1 H2 Hc Hv.
  unfold OpenAIClient.generateDescription, OpenAIClient.refine_description, bind, lift.
  rewrite H1, H2. unfold OpenAIClient.parse_description. rewrite Hc.
  destruct Hv as [-> | ->]; reflexivity.
Qed.

(** The value of [imageDescription] is never falsy. *)
Lemma reference_description_truthy (apiKey : jsstring) (refs : list jsstring)
    (w w' : World) (d : Js) :
  OpenAIClient.describe_reference_images apiKey refs w = (Ok d, w') ->
  truthy d = true.
Proof.
  unfold OpenAIClient.describe_reference_images.
  destruct refs as [|r refs].
  - intro H. inversion H. reflexivity.
  - unfold try_catch, OpenAIClient.reference_description_attempt, bind, lift, ret,
      console_warn.
    destruct (OpenAIClient._chatCompletion _ _ w) as [[v|e] w1].
    + destruct (OpenAIClient.first_choice_content v) as [c|e].
      * intro H. inversion H. unfold js_or.
        destruct (truthy c) eqn:Hc; [exact Hc | reflexivity].
      * intro H. inversion H. reflexivity.
    + intro H. inversion H. reflexivity.
Qed.

(** The requests of [generateDescription]: the describe call, if any, then
    the refinement call on the value of [imageDescription]. *)
Lemma generateDescription_world
    (apiKey : jsstring) (p : OpenAIClient.DescriptionParams) (w : World) :
  exists imageDescription : Js,
    truthy imageDescription = true
    /\ requests (snd (OpenAIClient.generateDescription apiKey p w))
       = requests w
         ++ (describe_calls apiKey (OpenAIClient.description_referenceImages p)
             ++ [OpenAIClient.chat_request apiKey
                   (OpenAIClient.refinement_params (OpenAIClient.systemPrompt p)
                      (OpenAIClient.userText p) imageDescription
                      (OpenAIClient.contextPrompt p))])
    /\ (OpenAIClient.description_referenceImages p = [] ->
        imageDescription = Str OpenAIClient.no_reference_images).
Proof.
  destruct (PipelineFacts.describe_reference_images_total apiKey
              (OpenAIClient.description_referenceImages p) w)
    as (d & w1 & Hd & Hr).
  exists d. split; [exact (reference_description_truthy _ _ _ _ _ Hd)|]. split.
  - unfold OpenAIClient.generateDescription, OpenAIClient.refine_description, bind.
    rewrite Hd.
    pose proof (PipelineFacts.chat_completion_world apiKey
                  (OpenAIClient.refinement_params (OpenAIClient.systemPrompt p)
                     (OpenAIClient.userText p) d (OpenAIClient.contextPrompt p)) w1)
      as Hw.
    destruct (OpenAIClient._chatCompletion _ _ w1) as [[r|e] w2]; cbn [snd] in *;
      subst w2; unfold lift; cbn [snd sent requests]; rewrite Hr;
      now rewrite app_assoc.
  - intro Hrefs. rewrite Hrefs in Hd. cbn in Hd. now inversion Hd.
Qed.

(** X5.  [generateDescription] issues one request without reference images
    and two with them, whatever the responses: the describe call (only with
    reference images) and then the refinement call, which carries a
    reference description that is never empty: the described text, or the
    sentinel. *)
Theorem description_requests
    (apiKey : jsstring) (p : OpenAIClient.DescriptionParams) (w : World) :
  exists imageDescription : Js,
    truthy imageDescription = true
    /\ issued w (snd (OpenAIClient.generateDescription apiKey p w))
       = describe_calls apiKey (OpenAIClient.description_referenceImages p)
         ++ [OpenAIClient.chat_request apiKey
               (OpenAIClient.refinement_params (OpenAIClient.systemPrompt p)
                  (OpenAIClient.userText p) imageDescription
                  (OpenAIClient.contextPrompt p))]
    /\ (OpenAIClient.description_referenceImages p = [] ->
        imageDescription = Str OpenAIClient.no_reference_images).
Proof.
  destruct (generateDescription_world apiKey p w) as (d & Ht & Hr & Hs).
  exists d. split; [exact Ht|]. split; [|exact Hs].
  now apply PipelineFacts.issued_app.
Qed.

Lemma chat_request_local (apiKey : jsstring) (params : Js) :
  local_request apiKey (OpenAIClient.chat_request apiKey params).
Proof.
  split; [reflexivity|]. split; [right; left; reflexivity | discriminate].
Qed.

Lemma synthesis_calls_local (apiKey : jsstring) (p : OpenAIClient.ImageParams) :
  Forall (local_request apiKey) (synthesis_calls apiKey p)
  /\ (List.length (synthesis_calls apiKey p) <= 1)%nat.
Proof.
  unfold synthesis_calls.
  destruct (OpenAIClient.referenceImages p).
  - split; [|cbn; lia]. constructor; [|constructor].
    split; [reflexivity|]. split; [right; left; reflexivity | discriminate].
  - destruct (OpenAIClient.reference_parts 0 _).
    + split; [|cbn; lia]. constructor; [|constructor].
      split; [reflexivity|]. split; [left; reflexivity | discriminate].
    + split; [constructor | cbn; lia].
Qed.

Lemma describe_calls_local (apiKey : jsstring) (refs : list jsstring) :
  Forall (local_request apiKey) (describe_calls apiKey refs)
  /\ (List.length (describe_calls apiKey refs) <= 1)%nat.
Proof.
  destruct refs; cbn; split; try lia; repeat constructor;
    try (right; left; reflexivity); discriminate.
Qed.

(** The local branch after the load issues at most three requests, all to
    the provider and with the local key. *)
Lemma local_steps_requests
    (s : Settings) (f : FormData) (refs : list jsstring) (w : World) :
  exists calls : list Request,
    requests (snd (Loader.local_steps s f refs w)) = requests w ++ calls
    /\ (List.length calls <= 3)%nat
    /\ Forall (local_request (openaiApiKey s)) calls.
Proof.
  unfold Loader.local_steps, bind, lift.
  destruct (createGenerator (generation_type f)) as [g|e]; cbn [snd].
  2:{ exists []. cbn. rewrite app_nil_r. repeat split; [lia | constructor]. }
  cbn [notify]. rewrite PipelineFacts.getDescription_local.
  match goal with
  | |- context [OpenAIClient.generateDescription ?k ?p ?w0] =>
      destruct (generateDescription_world k p w0) as (d & _ & Hr & _);
      destruct (OpenAIClient.generateDescription k p w0) as [[refined|e] w2]
  end; cbn [snd requests local_description_params
            OpenAIClient.description_referenceImages] in Hr.
  - cbn [console_log notify].
    match goal with
    | |- context [generateImage g ?k ?a ?w3] =>
        pose proof (PipelineFacts.generator_generateImage_world g k a w3) as Hi;
        destruct (generateImage g k a w3) as [[image|e] w4]
    end; cbn [snd requests] in *; unfold ret; cbn [snd];
      rewrite Hi, Hr, <- app_assoc;
      (eexists; split; [reflexivity|]);
      destruct (describe_calls_local (openaiApiKey s) refs) as [Fd Ld];
      destruct (synthesis_calls_local (openaiApiKey s)
                  (client_image_params g (local_image_args s f refs refined)))
        as [Fs Ls];
      (split;
       [ rewrite !length_app; cbn; lia
       | repeat (apply Forall_app; split); try assumption;
         constructor; [apply chat_request_local | constructor] ]).
  - cbn [snd]. rewrite Hr. eexists; split; [reflexivity|].
    destruct (describe_calls_local (openaiApiKey s) refs) as [Fd Ld].
    split.
    + rewrite length_app. cbn. lia.
    + apply Forall_app. split; [exact Fd|].
      constructor; [apply chat_request_local | constructor].
Qed.

(** Run in a session, the steps after the load leave the loader's state
    as it is. *)
Lemma in_world_local_steps {B : Loader.Browser}
    (s : Settings) (f : FormData) (refs : list jsstring) (h : Loader.Session) :
  let h' := snd (Loader.in_world (Loader.local_steps s f refs) h) in
  exists calls : list Request,
    requests (Loader.world h') = requests (Loader.world h) ++ calls
    /\ (List.length calls <= 3)%nat
    /\ Forall (local_request (openaiApiKey s)) calls
    /\ Loader.loader_events h' = Loader.loader_events h
    /\ Loader.QuickbrushCore h' = Loader.QuickbrushCore h.
Proof.
  unfold Loader.in_world.
  destruct (local_steps_requests s f refs (Loader.world h)) as (calls & Hr & Hl & Hf).
  destruct (Loader.local_steps s f refs (Loader.world h)) as [outcome w'].
  cbn [snd] in *. exists calls. repeat split; assumption.
Qed.

(** X6.  A run of the local branch, from its first line: it imports the
    core library from the page's own origin unless the library is already
    held, and nothing else; it issues at most three requests, each to the
    provider's chat or image endpoints with the local key as bearer
    credential, and none to the first-party backend.  When the import
    fails, the branch throws the import's error after [console.error] and
    an error notification, and issues no request.  When the library is
    already held, the branch is [localGeneration]. *)
Theorem local_branch_requests {B : Loader.Browser}
    (s : Settings) (f : FormData) (refs : list jsstring) (h : Loader.Session) :
  let result := Loader.localBranch s f refs h in
  let new := issued (Loader.world h) (Loader.world (snd result)) in
  let import := Loader.import_module (Loader.loader_events h) Loader.absoluteUrl in
  (List.length new <= 3)%nat
  /\ Forall (local_request (openaiApiKey s)) new
  /\ Loader.loader_events (snd result)
     = Loader.loader_events h
       ++ (if Loader.QuickbrushCore h then []
           else Loader.Imported Loader.absoluteUrl
                :: match import with
                   | None => []
                   | Some error =>
                       [Loader.ConsoleError Loader.msg_load_failed error;
                        Loader.NotifiedError Loader.msg_load_failed_notice]
                   end)
  /\ Loader.QuickbrushCore (snd result)
     = (Loader.QuickbrushCore h
        || match import with None => true | Some _ => false end)
  /\ (forall error : Exn,
         Loader.QuickbrushCore h = false -> import = Some error ->
         fst result = Throw error /\ new = [])
  /\ (Loader.QuickbrushCore h = true ->
      result = Loader.in_world (localGeneration s f refs) h).
Proof.
  intros result new import. subst result new import.
  destruct h as [w held events].
  unfold Loader.localBranch, Loader.loadQuickbrushCore.
  cbn [Loader.in_world console_log snd Loader.QuickbrushCore Loader.world
       Loader.loader_events Loader.recorded Loader.cached requests].
  destruct held; [|destruct (Loader.import_module events Loader.absoluteUrl)
                     as [error|] eqn:Himport].
  - match goal with
    | |- context [Loader.in_world (Loader.local_steps s f refs) ?h2] =>
        destruct (in_world_local_steps s f refs h2) as (calls & Hr & Hl & Hf & He & Hq);
        cbn [Loader.world Loader.loader_events Loader.QuickbrushCore requests] in *;
        set (r := Loader.in_world (Loader.local_steps s f refs) h2) in *
    end.
    rewrite (PipelineFacts.issued_app w _ calls Hr), He, Hq, app_nil_r.
    repeat split; try assumption; try discriminate.
  - unfold Loader.recorded.
    cbn [snd fst Loader.world Loader.loader_events Loader.QuickbrushCore orb].
    unfold issued. cbn [requests]. rewrite skipn_all.
    split; [cbn; lia|]. split; [constructor|].
    split; [now rewrite <- !app_assoc|]. split; [reflexivity|].
    split; [|discriminate].
    intros e _ He. inversion He; subst. split; reflexivity.
  - match goal with
    | |- context [Loader.in_world (Loader.local_steps s f refs) ?h2] =>
        destruct (in_world_local_steps s f refs h2) as (calls & Hr & Hl & Hf & He & Hq);
        cbn [Loader.world Loader.loader_events Loader.QuickbrushCore requests] in *;
        set (r := Loader.in_world (Loader.local_steps s f refs) h2) in *
    end.
    rewrite (PipelineFacts.issued_app w _ calls Hr), He, Hq.
    repeat split; try assumption; discriminate.
Qed.


Lemma generate_world (s : Settings) (params : Js) (w : World) :
  requests (snd (generate s params w))
  = requests w
    ++ (if truthy (getToken s) then [generate_request (getToken s) params] else []).
Proof.
  unfold generate. destruct (truthy (getToken s)); cbn [negb].
  - unfold bind, fetch.
    destruct (respond _ _) as [r|e]; [|reflexivity].
    unfold json, ret, throw. destruct (json_body r) as [data|]; [|reflexivity].
    destruct (ok r); cbn [negb]; [reflexivity|].
    unfold lift. destruct (get data (js "error")) as [disc|]; [|reflexivity].
    unfold throw_message, bind, lift, throw.
    destruct (strict_eq_str disc _);
      [destruct (get data (js "message")); reflexivity|].
    destruct (strict_eq_str disc _); destruct (get data (js "message")); reflexivity.
  - cbn. now rewrite app_nil_r.
Qed.

(** X7.  A server branch issues at most one request, to the first-party
    generate endpoint and authorised with the account token, and none
    without a token.  In the pooled branch the request body has no [apiKey]
    property; in the bring-your-own-key branch it carries the local key. *)
Theorem server_branch_request
    (s : Settings) (f : FormData) (refs : list jsstring) (withKey : bool) (w : World) :
  let params := generate_params s f refs withKey in
  issued w (snd (serverGeneration s f refs withKey w))
  = (if isLinked s
     then [{| url := api_generate_url; method := OpenAIClient.POST;
              headers := [(js "Content-Type", js "application/json");
                          (js "Authorization", js "Bearer " ++ wizzlethorpeToken s)];
              body := JsonBody params |}]
     else [])
  /\ get_opt params (js "apiKey")
     = (if withKey then Str (openaiApiKey s) else Undefined).
Proof.
  intro params. split.
  - apply PipelineFacts.issued_app.
    unfold serverGeneration, bind. cbn [console_log notify].
    match goal with
    | |- context [generate s ?q ?w0] =>
        pose proof (generate_world s q w0) as Hg;
        destruct (generate s q w0) as [[result|e] w1]
    end; cbn [snd requests] in Hg.
    + unfold lift, ret.
      destruct (get result (js "image")); [destruct (get result (js "description"))|];
        cbn [snd]; rewrite Hg; f_equal;
        unfold isLinked, getToken, js_or, generate_request, OpenAIClient.json_headers,
          OpenAIClient.bearer, ToString;
        destruct (wizzlethorpeToken s); reflexivity.
    + cbn [snd]. rewrite Hg. f_equal.
      unfold isLinked, getToken, js_or, generate_request, OpenAIClient.json_headers,
        OpenAIClient.bearer, ToString.
      destruct (wizzlethorpeToken s); reflexivity.
  - subst params. unfold generate_params. destruct withKey; reflexivity.
Qed.

Lemma decode_base64_bytes (text : jsstring) (bytes : list N) :
  OpenAIClient.decode_base64 text = Ok bytes ->
  Forall (fun b => (b < 256)%N) bytes.
Proof.
  unfold OpenAIClient.decode_base64. destruct (atob text) as [binary|]; [|discriminate].
  intro H. inversion H. apply Forall_forall. intros b Hb.
  apply in_map_iff in Hb as (c & <- & _). apply N.mod_lt. discriminate.
Qed.

Lemma parse_image_truthy (response v : Js) :
  OpenAIClient.parse_image response = Ok v -> truthy v = true.
Proof.
  unfold OpenAIClient.parse_image. intro H.
  destruct (get response (js "data")) as [data|]; [|discriminate].
  destruct (negb (truthy data)); [discriminate|].
  destruct (get0 data) as [first|]; [|discriminate].
  destruct (negb (truthy first)); [discriminate|].
  destruct (get first (js "b64_json")) as [b|]; [|discriminate].
  destruct (truthy b) eqn:Hb; cbn [negb] in H; [|discriminate].
  inversion H; subst. exact Hb.
Qed.

(** X8.  Whenever [ImageGenerator.generateImage] returns, the blob is tagged
    image/png and each of its bytes is below 256; and whenever the client's
    [generateImage] returns, the base64 value it returns is not empty. *)
Theorem synthesized_image_is_png
    (g : ImageGenerator) (apiKey : jsstring) (a : GenerateImageArgs) :
  (forall (w w' : World) (image : Blob),
      generateImage g apiKey a w = (Ok image, w') ->
      blob_type image = OpenAIClient.image_png
      /\ Forall (fun b => (b < 256)%N) (blob_bytes image))
  /\ (forall (p : OpenAIClient.ImageParams) (w w' : World) (base64Image : Js),
         OpenAIClient.generateImage apiKey p w = (Ok base64Image, w') ->
         truthy base64Image = true).
Proof.
  split.
  - intros w w' image. unfold generateImage, bind, lift, ret.
    destruct (OpenAIClient.generateImage _ _ w) as [[v|e] w1]; [|discriminate].
    destruct (OpenAIClient.decode_base64 (ToString v)) as [bytes|] eqn:Hd;
      [|discriminate].
    intro H. inversion H. cbn. split; [reflexivity|].
    now apply decode_base64_bytes with (text := ToString v).
  - intros p w w' v. unfold OpenAIClient.generateImage.
    destruct (OpenAIClient.referenceImages p).
    + unfold bind, lift.
      destruct (OpenAIClient._imageGeneration _ _ w) as [[r|e] w1]; [|discriminate].
      destruct (OpenAIClient.parse_image r) eqn:Hp; [|discriminate].
      intro H. inversion H; subst. now apply parse_image_truthy with (response := r).
    + unfold OpenAIClient._imageEdit, bind, lift, fetch.
      destruct (OpenAIClient.reference_parts 0 _); [|discriminate].
      destruct (respond _ _) as [r|e]; [|discriminate].
      destruct (ok r); cbn [negb].
      * unfold json, ret, throw. destruct (json_body r) as [d|]; [|discriminate].
        destruct (OpenAIClient.parse_image d) eqn:Hp; [|discriminate].
        intro H. inversion H; subst. now apply parse_image_truthy with (response := d).
      * intro H. exfalso.
        unfold OpenAIClient.throw_api_error, bind, try_catch, json, lift, ret,
          throw in H.
        destruct (json_body r) as [d|]; cbn in H;
          [destruct (get d _); discriminate | discriminate].
Qed.

Lemma reference_parts_fails (refs : list jsstring) :
  forall (i : nat) (bad : jsstring),
    In bad refs -> atob (after_comma_or_self bad) = None ->
    OpenAIClient.reference_parts i refs = Throw InvalidCharacterError.
Proof.
  induction refs as [|r refs IH]; intros i bad Hin Hbad; [contradiction|].
  cbn [OpenAIClient.reference_parts]. unfold OpenAIClient.decode_base64.
  destruct (atob (after_comma_or_self r)) as [binary|] eqn:Hr; [|reflexivity].
  destruct Hin as [->|Hin]; [congruence|].
  now rewrite (IH (S i) bad Hin Hbad).
Qed.

(** X9.  When one of the reference images does not decode as base64, the
    client's [generateImage] throws before any request is issued. *)
Theorem undecodable_reference_aborts_before_request
    (apiKey : jsstring) (p : OpenAIClient.ImageParams) (w : World) (bad : jsstring) :
  In bad (OpenAIClient.referenceImages p) ->
  atob (after_comma_or_self bad) = None ->
  OpenAIClient.generateImage apiKey p w = (Throw InvalidCharacterError, w).
Proof.
  intros Hin Hbad. unfold OpenAIClient.generateImage.
  destruct (OpenAIClient.referenceImages p) as [|r refs] eqn:Hrefs; [contradiction|].
  unfold OpenAIClient._imageEdit, bind, lift. rewrite Hrefs.
  now rewrite (reference_parts_fails (r :: refs) 0 bad Hin Hbad).
Qed.

(** X10.  The file parts of the edit request are named reference_0.png,
    reference_1.png, ... in the order of the reference images. *)
Theorem reference_parts_are_numbered (refs : list jsstring) (parts : list FormPart) :
  OpenAIClient.reference_parts 0 refs = Ok parts ->
  map part_filename parts
  = map (fun k => js "reference_" ++ js_of_nat k ++ js ".png")
        (seq 0 (List.length refs)).
Proof.
  assert (H : forall (l : list jsstring) (i : nat) (ps : list FormPart),
             OpenAIClient.reference_parts i l = Ok ps ->
             map part_filename ps
             = map (fun k => js "reference_" ++ js_of_nat k ++ js ".png")
                   (seq i (List.length l))).
  { induction l as [|r l IH]; intros i ps Hps; cbn in Hps.
    - inversion Hps. reflexivity.
    - destruct (OpenAIClient.decode_base64 _); [|discriminate].
      destruct (OpenAIClient.reference_parts (S i) l) as [rest|] eqn:Hrest;
        [|discriminate].
      inversion Hps. cbn [map List.length seq part_filename].
      now rewrite (IH (S i) rest Hrest). }
  apply H.
Qed.

(** X11.  When the response to the generation request is ok but has no
    [data], or an empty [data] array, the client's [generateImage] throws "No
    image data returned from OpenAI API.". *)
Theorem missing_image_data_is_reported
    (apiKey : jsstring) (p : OpenAIClient.ImageParams) (w w' : World)
    (response data : Js) :
  OpenAIClient.referenceImages p = [] ->
  OpenAIClient._imageGeneration apiKey (OpenAIClient.generation_params p) w
  = (Ok response, w') ->
  get response (js "data") = Ok data ->
  data = Undefined \/ data = Arr [] ->
  OpenAIClient.generateImage apiKey p w
  = (Throw (Error OpenAIClient.msg_no_image_data), w').
Proof.
  intros Hrefs Hcall Hdata Hv.
  unfold OpenAIClient.generateImage, bind, lift. rewrite Hrefs, Hcall.
  unfold OpenAIClient.parse_image. rewrite Hdata.
  destruct Hv as [-> | ->]; reflexivity.
Qed.

End WithPlatform.


Lemma generate_needs_token_witness :
  generate (P := double healthy_server) unlinked_with_key Null initial_world
  = (Throw (Error msg_not_linked), initial_world).
Proof.
  exact (@generate_needs_token (double healthy_server) unlinked_with_key Null
           initial_world eq_refl).
Defined.

Lemma local_branch_requests_witness :
  (fst (Loader.localBranch (B := offline_browser) (P := double healthy_server)
          unlinked_with_key character_form one_reference fresh_session)
   = Throw (FetchFailure (js "Failed to fetch dynamically imported module"))
   /\ issued initial_world
        (Loader.world
           (snd (Loader.localBranch (B := offline_browser) (P := double healthy_server)
                   unlinked_with_key character_form one_reference fresh_session)))
      = [])
  /\ Loader.loader_events
       (snd (Loader.localBranch (B := serving_browser) (P := double healthy_server)
               unlinked_with_key character_form one_reference fresh_session))
     = [Loader.Imported
          (js "http://localhost:30000/modules/wizzlethorpe-labs/scripts/quickbrush-core.js")].
Proof.
  split.
  - exact (proj1 (proj2 (proj2 (proj2 (proj2
             (@local_branch_requests (double healthy_server) offline_browser
                unlinked_with_key character_form one_reference fresh_session)))))
             _ eq_refl eq_refl).
  - exact (proj1 (proj2 (proj2
             (@local_branch_requests (double healthy_server) serving_browser
                unlinked_with_key character_form one_reference fresh_session)))).
Defined.

Lemma refused_call_reports_provider_message_witness :
  fst (OpenAIClient._chatCompletion (P := refusing_openai (Some rate_limit_body))
         (js "key") Null initial_world)
  = Throw (Error (js "OpenAI API error: Rate limit reached")).
Proof.
  refine (f_equal fst
            (proj1 (proj2
               (@refused_call_reports_provider_message
                  (refusing_openai (Some rate_limit_body)) (js "key") Null
                  initial_world
                  {| ok := false; statusText := js "Too Many Requests";
                     json_body := Some rate_limit_body |}
                  eq_refl eq_refl))
               rate_limit_body _ (js "Rate limit reached")
               eq_refl eq_refl eq_refl _)).
  discriminate.
Defined.

Lemma description_is_trimmed_and_not_empty_witness :
  js "a tall elf" <> [] /\ js_trim (js "a tall elf") = js "a tall elf".
Proof.
  refine (@description_is_trimmed_and_not_empty (double healthy_server) (js "key")
            (local_description_params CharacterImageGenerator character_form [])
            initial_world _ (js "a tall elf") eq_refl).
Defined.

Lemma missing_choices_is_no_response_witness :
  fst (OpenAIClient.generateDescription (P := answering (Obj [])) (js "key")
         (local_description_params CharacterImageGenerator character_form [])
         initial_world)
  = Throw (Error OpenAIClient.msg_no_response).
Proof.
  refine (f_equal fst
            (@missing_choices_is_no_response (answering (Obj [])) (js "key")
               (local_description_params CharacterImageGenerator character_form [])
               initial_world _ _ _ (Obj []) Undefined
               eq_refl eq_refl eq_refl (or_introl eq_refl))).
Defined.

Lemma synthesized_image_is_png_witness :
  exists (image : Blob) (w' : World),
    generateImage (P := double healthy_server) ItemImageGenerator (js "key")
      (local_image_args unlinked_with_key character_form [] (js "a brass lantern"))
      initial_world = (Ok image, w')
    /\ blob_type image = OpenAIClient.image_png.
Proof.
  eexists _, _. split; [reflexivity|].
  refine (proj1 (proj1 (@synthesized_image_is_png (double healthy_server)
                          ItemImageGenerator (js "key")
                          (local_image_args unlinked_with_key character_form []
                             (js "a brass lantern")))
                   initial_world _ _ eq_refl)).
Defined.

Lemma undecodable_reference_aborts_before_request_witness :
  OpenAIClient.generateImage (P := strict_atob) (js "key")
    (square_params [js "data:image/png;base64,AAAA"; js "data:image/png;base64,!!"])
    initial_world
  = (Throw InvalidCharacterError, initial_world).
Proof.
  refine (@undecodable_reference_aborts_before_request strict_atob (js "key")
            (square_params [js "data:image/png;base64,AAAA";
                            js "data:image/png;base64,!!"])
            initial_world (js "data:image/png;base64,!!") _ eq_refl).
  right. left. reflexivity.
Defined.

Lemma reference_parts_are_numbered_witness :
  exists parts : list FormPart,
    OpenAIClient.reference_parts (P := double healthy_server) 0 five_references
    = Ok parts
    /\ map part_filename parts
       = [js "reference_0.png"; js "reference_1.png"; js "reference_2.png";
          js "reference_3.png"; js "reference_4.png"].
Proof.
  eexists. split; [reflexivity|].
  exact (@reference_parts_are_numbered (double healthy_server) five_references _
           eq_refl).
Defined.

Lemma missing_image_data_is_reported_witness :
  fst (OpenAIClient.generateImage (P := answering (Obj [])) (js "key")
         (square_params []) initial_world)
  = Throw (Error OpenAIClient.msg_no_image_data).
Proof.
  refine (f_equal fst
            (@missing_image_data_is_reported (answering (Obj [])) (js "key")
               (square_params []) initial_world _ (Obj []) Undefined
               eq_refl eq_refl eq_refl (or_introl eq_refl))).
Defined.

End ClientFacts.

(* ------------------------------------------------------------------ *)
(** ** Further properties: account, form, file names, journal *)

Module ModuleFacts.

Import Pipeline Dialog Doubles MoreDoubles Observations Account Form Journal.

(** X12.  After [unlink] no account is linked and server generation is not
    available: the resolver selects the local branch when a key is
    configured and otherwise asks to link an account or configure a key. *)
Theorem unlink_leaves_local_mode (s : Settings) :
  isLinked (unlink s) = false
  /\ canUseServerGeneration (unlink s) = false
  /\ resolve (unlink s)
     = match openaiApiKey s with
       | [] => Unconfigured [msg_no_account_no_key]
       | _ :: _ => Selected LocalDirectBYOK
       end.
Proof.
  split; [reflexivity|]. split; [reflexivity|].
  unfold resolve, shouldUseAPI, shouldUseBYOKAPI, shouldUseLocalBYOK, js_and.
  cbn. destruct (openaiApiKey s); reflexivity.
Qed.

Lemma blank_false (value : jsstring) :
  blank value = false -> js_trim value <> [].
Proof.
  unfold blank. intros H E. rewrite E in H.
  destruct (truthy (Str value)); discriminate.
Qed.

(** X13.  When [_updateObject] goes on to generate, the description and the
    name hold a character that is not white space, and the selected branch
    has the credential it uses: the two server branches run only with a
    stored token (and the brokered one only with a local key), the pooled
    branch only with a tier of at least 500 cents and server mode on, the
    local branch only with a local key and no token. *)
Theorem submission_has_credentials (s : Settings) (f : FormData)
    (strategy : GenerationStrategy) :
  submission s f = Generate strategy ->
  js_trim (text f) <> [] /\ js_trim (image_name f) <> []
  /\ match strategy with
     | ServerPooled =>
         truthy (getToken s) = true
         /\ canUseServerGeneration s = true /\ useServerMode s = true
     | ServerBrokeredBYOK =>
         truthy (getToken s) = true /\ openaiApiKey s <> []
     | LocalDirectBYOK =>
         wizzlethorpeToken s = [] /\ openaiApiKey s <> []
     end.
Proof.
  unfold submission.
  destruct (blank (text f)) eqn:Ht; [discriminate|].
  destruct (blank (image_name f)) eqn:Hn; [discriminate|].
  destruct (resolve s) as [st|errors] eqn:Hr; [|discriminate].
  intro H. inversion H; subst st.
  split; [now apply blank_false|]. split; [now apply blank_false|].
  revert Hr. unfold resolve, shouldUseAPI, shouldUseBYOKAPI, shouldUseLocalBYOK,
    canUseServerGeneration, getLinkedAccount, isLinked, getToken, js_and, js_or.
  destruct s as [token account key serverMode model].
  cbn [wizzlethorpeToken wizzlethorpeAccount openaiApiKey useServerMode].
  destruct token as [|t0 token]; destruct key as [|k0 key];
    destruct serverMode; destruct account as [[name cents]|];
    cbn; try destruct (500 <=? cents)%Z; cbn;
    destruct strategy; intro Hr; try discriminate Hr;
    repeat split; try reflexivity; discriminate.
Qed.

Lemma submission_has_credentials_witness :
  truthy (getToken linked_free_with_key) = true
  /\ openaiApiKey linked_free_with_key <> [].
Proof.
  exact (proj2 (proj2 (submission_has_credentials linked_free_with_key
                         character_form ServerBrokeredBYOK eq_refl))).
Defined.

(** X14.  An account that qualifies for server generation also qualifies
    for the advanced bring-your-own-key tier; in particular whenever the
    resolver selects the pooled branch. *)
Theorem server_tier_includes_byok_tier (s : Settings) :
  (canUseServerGeneration s = true -> canUseBYOKAdvanced s = true)
  /\ (resolve s = Selected ServerPooled -> canUseBYOKAdvanced s = true).
Proof.
  assert (H : canUseServerGeneration s = true -> canUseBYOKAdvanced s = true).
  { unfold canUseServerGeneration, canUseBYOKAdvanced.
    destruct (getLinkedAccount s) as [a|]; [|discriminate].
    intro H. apply Z.leb_le in H. apply Z.leb_le. lia. }
  split; [exact H|].
  intro Hr. apply H. revert Hr.
  unfold resolve, shouldUseBYOKAPI, shouldUseLocalBYOK, shouldUseAPI, js_and.
  destruct (isLinked s); destruct (canUseServerGeneration s);
    destruct (useServerMode s); destruct (openaiApiKey s); cbn;
    intro Hr; try discriminate Hr; reflexivity.
Qed.

Lemma server_tier_includes_byok_tier_witness :
  canUseBYOKAdvanced linked_alchemist = true.
Proof.
  exact (proj2 (server_tier_includes_byok_tier linked_alchemist) eq_refl).
Defined.


(** Word characters and the hyphen are not white space. *)
Lemma name_char_not_whitespace (c : N) :
  name_char c = true -> is_js_whitespace c = false.
Proof.
  unfold name_char, is_word_char, hyphen, is_js_whitespace. intro H.
  repeat (apply orb_true_iff in H as [H|H]);
    repeat match goal with
           | H : (_ && _)%bool = true |- _ => apply andb_true_iff in H as [? ?]
           | H : N.leb _ _ = true |- _ => apply N.leb_le in H
           | H : N.eqb _ _ = true |- _ => apply N.eqb_eq in H
           end;
    repeat (apply orb_false_iff; split);
    try (apply N.eqb_neq; lia);
    (apply andb_false_iff;
     destruct (N.leb 8192 c) eqn:E; [apply N.leb_le in E; lia | now left]).
Qed.

Lemma hyphenate_chars (s : jsstring) :
  forall in_run : bool,
    Forall (fun c => is_word_char c || is_js_whitespace c || N.eqb c hyphen = true) s ->
    Forall (fun c => name_char c = true) (hyphenate in_run s).
Proof.
  induction s as [|c s IH]; intros in_run H; cbn [hyphenate]; [constructor|].
  inversion H as [|? ? Hc Hs]; subst.
  destruct (is_js_whitespace c) eqn:Hw.
  - destruct in_run; [now apply IH|].
    constructor; [reflexivity | now apply IH].
  - constructor; [|now apply IH].
    unfold name_char. destruct (is_word_char c); [reflexivity|]. exact Hc.
Qed.

Lemma forall_trim_start (Q : N -> Prop) (s : jsstring) :
  Forall Q s -> Forall Q (trim_start s).
Proof.
  induction 1 as [|c s Hc Hs IH]; cbn [trim_start]; [constructor|].
  destruct (is_js_whitespace c); [exact IH | now constructor].
Qed.

Lemma forall_js_trim (Q : N -> Prop) (s : jsstring) :
  Forall Q s -> Forall Q (js_trim s).
Proof.
  intro H. unfold js_trim, trim_end.
  apply Forall_rev, forall_trim_start, Forall_rev, forall_trim_start, H.
Qed.

Lemma hyphenate_fixed (s : jsstring) :
  Forall (fun c => name_char c = true) s -> hyphenate false s = s.
Proof.
  induction 1 as [|c s Hc Hs IH]; cbn [hyphenate]; [reflexivity|].
  rewrite (name_char_not_whitespace c Hc). now rewrite IH.
Qed.

Lemma trim_start_fixed (s : jsstring) :
  Forall (fun c => name_char c = true) s -> trim_start s = s.
Proof.
  destruct 1 as [|c s Hc Hs]; cbn [trim_start]; [reflexivity|].
  now rewrite (name_char_not_whitespace c Hc).
Qed.

Lemma sanitized_chars (image_name : jsstring) :
  Forall (fun c => name_char c = true) (sanitized image_name).
Proof.
  unfold sanitized. apply hyphenate_chars, forall_js_trim.
  unfold strip_special. apply Forall_forall. intros c Hc.
  now apply filter_In in Hc.
Qed.

(** X15.  The sanitized image name holds only letters, digits, underscores
    and hyphens (so no white space and no path separator); sanitizing is
    idempotent; and a name that passes the form's validation can sanitize
    to the empty string. *)
Theorem sanitized_name_is_safe (image_name : jsstring) :
  Forall (fun c => name_char c = true) (sanitized image_name)
  /\ sanitized (sanitized image_name) = sanitized image_name
  /\ (exists name : jsstring, blank name = false /\ sanitized name = []).
Proof.
  pose proof (sanitized_chars image_name) as H.
  split; [exact H|]. split.
  - set (n := sanitized image_name) in *. unfold sanitized at 1.
    assert (Hs : strip_special n = n).
    { unfold strip_special. apply forallb_filter_id. apply forallb_forall.
      intros c Hc. rewrite Forall_forall in H. specialize (H c Hc).
      unfold name_char in H. apply orb_true_iff in H as [H|H]; rewrite H;
        [reflexivity | now rewrite orb_true_r]. }
    rewrite Hs. unfold js_trim, trim_end.
    rewrite (trim_start_fixed n H).
    rewrite (trim_start_fixed (rev n) (Forall_rev H)), rev_involutive.
    now apply hyphenate_fixed.
  - exists (js "?!"). split; reflexivity.
Qed.

(** X16.  The text extracted from the visible journal pages has at most
    [max_text_length] (ten thousand) characters and neither starts nor ends
    with white space. *)
Theorem journal_text_is_bounded (pages : list (option jsstring)) :
  (List.length (extractVisibleJournalText pages) <= max_text_length)%nat
  /\ js_trim (extractVisibleJournalText pages) = extractVisibleJournalText pages.
Proof.
  unfold extractVisibleJournalText. destruct pages as [|page pages].
  - split; [cbn; lia | reflexivity].
  - split; [|apply StringFacts.js_trim_idempotent].
    eapply Nat.le_trans; [apply StringFacts.js_trim_length|].
    apply firstn_le_length.
Qed.

Lemma firstn_firstn_app {A} (n : nat) (l m : list A) :
  firstn n (firstn n l ++ m) = firstn n (l ++ m).
Proof.
  revert l. induction n as [|n IH]; intros [|x l]; cbn; try reflexivity.
  now rewrite IH.
Qed.

Lemma push_src_firstn (page : list Js) :
  forall refs : list jsstring,
    (List.length refs <= 4)%nat ->
    fold_left push_src page refs = firstn 4 (refs ++ src_strings page).
Proof.
  induction page as [|src page IH]; intros refs H; cbn [fold_left src_strings flat_map].
  - rewrite app_nil_r. symmetry. now apply firstn_all2.
  - fold (src_strings page). unfold push_src at 2.
    destruct (Nat.ltb (List.length refs) 4) eqn:Hlt.
    + apply Nat.ltb_lt in Hlt.
      destruct src as [| | | |[|c rest]| | |]; cbn [app];
        try (now apply IH).
      rewrite IH by (rewrite length_app; cbn; lia).
      now rewrite <- app_assoc.
    + apply Nat.ltb_ge in Hlt. rewrite IH by exact H.
      rewrite !firstn_app.
      replace (4 - List.length refs)%nat with 0%nat by lia.
      now rewrite !firstn_O.
Qed.

Lemma scan_pages_firstn (pages : list (list Js)) :
  forall refs : list jsstring,
    (List.length refs <= 4)%nat ->
    fold_left scan_page pages refs
    = firstn 4 (refs ++ src_strings (List.concat pages)).
Proof.
  induction pages as [|page pages IH]; intros refs H; cbn [fold_left List.concat].
  - change (src_strings []) with (@nil jsstring).
    rewrite app_nil_r. symmetry. now apply firstn_all2.
  - assert (Hscan : scan_page refs page = firstn 4 (refs ++ src_strings page)).
    { unfold scan_page. destruct (Nat.ltb (List.length refs) 4) eqn:Hlt.
      - now apply push_src_firstn.
      - apply Nat.ltb_ge in Hlt. rewrite firstn_app.
        replace (4 - List.length refs)%nat with 0%nat by lia.
        rewrite firstn_O, app_nil_r. symmetry. now apply firstn_all2. }
    rewrite IH by (rewrite Hscan; apply firstn_le_length).
    rewrite Hscan, firstn_firstn_app.
    unfold src_strings. now rewrite flat_map_app, app_assoc.
Qed.

(** X17.  The reference images collected from a journal are the first four
    non-empty [src] values of the images of its visible pages, in page
    order. *)
Theorem journal_reference_images_are_first_four (pages : list (list Js)) :
  journal_reference_images pages = firstn 4 (src_strings (List.concat pages)).
Proof.
  unfold journal_reference_images.
  rewrite scan_pages_firstn by (cbn; lia). reflexivity.
Qed.

Lemma split_on_without (sep : N) (s : jsstring) :
  ~ In sep s -> split_on sep s = [s].
Proof.
  induction s as [|c s IH]; intro H; cbn [split_on]; [reflexivity|].
  destruct (N.eqb c sep) eqn:E.
  - apply N.eqb_eq in E. exfalso. apply H. now left.
  - rewrite IH; [reflexivity|]. intro Hin. apply H. now right.
Qed.

Lemma split_on_first (sep : N) (prefix rest : jsstring) :
  ~ In sep prefix ->
  split_on sep (prefix ++ sep :: rest) = prefix :: split_on sep rest.
Proof.
  induction prefix as [|c prefix IH]; intro H; cbn [split_on app].
  - now rewrite N.eqb_refl.
  - destruct (N.eqb c sep) eqn:E.
    + apply N.eqb_eq in E. exfalso. apply H. now left.
    + rewrite IH; [reflexivity|]. intro Hin. apply H. now right.
Qed.

(** X18.  From a data URI (a prefix, one comma, a non-empty payload, with no
    other comma) the edit path takes exactly the payload; a text without a
    comma is taken whole. *)
Theorem data_uri_payload (prefix payload : jsstring) :
  ~ In comma prefix -> ~ In comma payload ->
  (payload <> [] -> after_comma_or_self (prefix ++ comma :: payload) = payload)
  /\ after_comma_or_self payload = payload.
Proof.
  intros Hp Hq. unfold after_comma_or_self. split.
  - intro Hne. rewrite (split_on_first comma prefix payload Hp).
    rewrite (split_on_without comma payload Hq). cbn [nth_error].
    destruct payload; [contradiction | reflexivity].
  - rewrite (split_on_without comma payload Hq). reflexivity.
Qed.

Lemma data_uri_payload_witness :
  after_comma_or_self (js "data:image/png;base64,iVBORw0KGgo") = js "iVBORw0KGgo".
Proof.
  refine (proj1 (data_uri_payload (js "data:image/png;base64") (js "iVBORw0KGgo")
                   _ _) _).
  - vm_compute. intuition discriminate.
  - vm_compute. intuition discriminate.
  - discriminate.
Defined.

End ModuleFacts.

(* ------------------------------------------------------------------ *)
(** ** Further properties: reference conversion, link polling, cocktail
       cards *)

Module HostFacts.

Import Doubles MoreDoubles Observations References Linking Cocktails.

Lemma convert_from_counts (read_image : nat -> jsstring -> ImageRead)
    (imagePaths : list jsstring) :
  forall i : nat,
    (List.length (fst (convert_from read_image i imagePaths))
     + List.length (snd (convert_from read_image i imagePaths))
     = List.length imagePaths)%nat.
Proof.
  induction imagePaths as [|imagePath rest IH]; intro i; cbn [convert_from].
  - reflexivity.
  - specialize (IH (S i)).
    destruct (convert_from read_image (S i) rest) as [images warnings].
    cbn [fst snd] in IH.
    destruct (read_image i imagePath); cbn [fst snd List.length]; lia.
Qed.

Lemma convert_from_all_read (read_image : nat -> jsstring -> ImageRead)
    (uri : nat -> jsstring -> jsstring) (imagePaths : list jsstring) :
  (forall i imagePath, read_image i imagePath = DataUri (uri i imagePath)) ->
  forall i : nat,
    convert_from read_image i imagePaths
    = (map (fun entry => uri (fst entry) (snd entry))
           (combine (seq i (List.length imagePaths)) imagePaths), []).
Proof.
  intro Hall. induction imagePaths as [|imagePath rest IH]; intro i;
    cbn [convert_from List.length seq combine map]; [reflexivity|].
  now rewrite IH, Hall.
Qed.

(** X19.  [convertImagesToBase64] accounts for every path: each one yields
    either one data URI or one warning, so the result is never longer than
    the list of paths (four paths give at most four images); when every
    image is read, the result holds their data URIs in order and nothing is
    logged. *)
Theorem conversion_accounts_for_every_path
    (read_image : nat -> jsstring -> ImageRead) (imagePaths : list jsstring) :
  let result := convertImagesToBase64 read_image imagePaths in
  (List.length (fst result) + List.length (snd result) = List.length imagePaths)%nat
  /\ (List.length (base64ReferenceImages read_image imagePaths)
      <= List.length imagePaths)%nat
  /\ (forall uri : nat -> jsstring -> jsstring,
         (forall i imagePath, read_image i imagePath = DataUri (uri i imagePath)) ->
         result = (map (fun entry => uri (fst entry) (snd entry))
                       (combine (seq 0 (List.length imagePaths)) imagePaths), [])).
Proof.
  intro result. subst result. unfold convertImagesToBase64.
  pose proof (convert_from_counts read_image imagePaths 0) as Hc.
  split; [exact Hc|]. split.
  - unfold base64ReferenceImages, convertImagesToBase64.
    destruct imagePaths as [|p rest]; [cbn; lia|]. lia.
  - intros uri Hall. now apply convert_from_all_read.
Qed.

Lemma conversion_accounts_for_every_path_witness :
  convertImagesToBase64 (fun _ imagePath => DataUri (js "data:," ++ imagePath))
    [js "a.png"; js "b.png"]
  = ([js "data:,a.png"; js "data:,b.png"], []).
Proof.
  exact (proj2 (proj2 (conversion_accounts_for_every_path
                         (fun _ imagePath => DataUri (js "data:," ++ imagePath))
                         [js "a.png"; js "b.png"]))
           (fun _ imagePath => js "data:," ++ imagePath)
           (fun _ _ => eq_refl)).
Defined.

Lemma base64_within_paths (read_image : nat -> jsstring -> ImageRead)
    (referenceImagePaths : list jsstring) :
  (List.length (base64ReferenceImages read_image referenceImagePaths)
   <= List.length referenceImagePaths)%nat.
Proof.
  unfold base64ReferenceImages, convertImagesToBase64.
  pose proof (convert_from_counts read_image referenceImagePaths 0).
  destruct referenceImagePaths; [cbn; lia | lia].
Qed.

Lemma run_keeps_cap (actions : list Dialog.Action) :
  forall referenceImages : list jsstring,
    (List.length referenceImages <= 4)%nat ->
    (List.length (Dialog.run actions referenceImages) <= 4)%nat.
Proof.
  unfold Dialog.run.
  induction actions as [|a actions IH]; intros l Hl; cbn [fold_left].
  - exact Hl.
  - apply IH. now apply DialogFacts.step_keeps_cap.
Qed.

(** X23.  From the module's entry points to the generation branches: the
    images collected from a journal, or the image of an actor or item, after
    any sequence of picks and removals in the dialog and after conversion on
    any host, are at most four base64 reference images. *)
Theorem at_most_four_images_are_converted
    (read_image : nat -> jsstring -> ImageRead) (actions : list Dialog.Action) :
  (forall pages : list (list Js),
      (List.length (base64ReferenceImages read_image
                      (Dialog.run actions (Dialog.journal_reference_images pages)))
       <= 4)%nat)
  /\ (forall (img : Js) (isPlaceholder : bool),
         (List.length (base64ReferenceImages read_image
                         (Dialog.run actions
                            (Dialog.document_reference_images img isPlaceholder)))
          <= 4)%nat).
Proof.
  split.
  - intro pages.
    etransitivity; [apply base64_within_paths|].
    apply run_keeps_cap, DialogFacts.journal_reference_images_cap.
  - intros img isPlaceholder.
    etransitivity; [apply base64_within_paths|].
    apply run_keeps_cap, DialogFacts.document_reference_images_cap.
Qed.

Section WithHost.

Context {H : LinkHost}.

Lemma caught_spec (error : Exn) (run run' : LinkRun) (a : Attempt) :
  caught error run = (a, run') ->
  polls run' = polls run /\ saved run' = saved run
  /\ (forall user, a <> Completed user)
  /\ (forall e, a = Thrown e ->
        js_includes (js "expired") (error_message e) = true).
Proof.
  unfold caught.
  destruct (js_includes (js "expired") (error_message error)) eqn:Hi;
    intro E; inversion E; subst; cbn;
    repeat split; try discriminate.
  intros e He. inversion He; subst. exact Hi.
Qed.

(** One iteration issues one status request; it completes only after
    saving a truthy token, and throws only errors that mention "expired". *)
Lemma attempt_link_spec (attempt : nat) (linkCode : jsstring)
    (run run' : LinkRun) (a : Attempt) :
  attempt_link attempt linkCode run = (a, run') ->
  polls run' = polls run ++ [link_status_url linkCode]
  /\ (forall user, a = Completed user ->
        exists token, In (js "wizzlethorpeToken", token) (saved run')
                      /\ truthy token = true)
  /\ (forall e, a = Thrown e ->
        js_includes (js "expired") (error_message e) = true).
Proof.
  unfold attempt_link. intro E.
  assert (Hc : forall error r,
             caught error r = (a, run') ->
             polls r = polls run ++ [link_status_url linkCode] ->
             polls run' = polls run ++ [link_status_url linkCode]
             /\ (forall user, a = Completed user ->
                   exists token, In (js "wizzlethorpeToken", token) (saved run')
                                 /\ truthy token = true)
             /\ (forall e, a = Thrown e ->
                   js_includes (js "expired") (error_message e) = true)).
  { intros error r Hr Hp.
    destruct (caught_spec error r run' a Hr) as (P1 & _ & P3 & P4).
    split; [congruence|]. split; [|exact P4].
    intros user Hu. exfalso. exact (P3 user Hu). }
  destruct (poll_status attempt (link_status_url linkCode)) as [response|e];
    [|exact (Hc _ _ E eq_refl)].
  destruct (json_body response) as [data|]; [|exact (Hc _ _ E eq_refl)].
  destruct (get data (js "status")) as [status|e]; [|exact (Hc _ _ E eq_refl)].
  destruct (strict_eq_str status (js "completed")
            && truthy (get_opt data (js "token"))) eqn:Hdone.
  - apply andb_true_iff in Hdone as [_ Htoken].
    destruct (get (get_opt data (js "user")) (js "name")) as [name|e].
    + inversion E; subst. cbn [polled saving polls saved].
      split; [reflexivity|]. split; [|discriminate].
      intros user _. exists (get_opt data (js "token")).
      split; [|exact Htoken]. apply in_or_app. right. left. reflexivity.
    + exact (Hc _ _ E eq_refl).
  - destruct (strict_eq_str status (js "expired")).
    + exact (Hc _ _ E eq_refl).
    + inversion E; subst. cbn [polled polls].
      split; [reflexivity|]. split; discriminate.
Qed.

Lemma poll_loop_spec (linkCode : jsstring) (remaining : nat) :
  forall (attempt : nat) (run run' : LinkRun) (out : Outcome Js),
    poll_loop remaining attempt linkCode run = (out, run') ->
    (List.length (polls run') <= List.length (polls run) + remaining)%nat
    /\ (forall user, out = Ok user ->
          exists token, In (js "wizzlethorpeToken", token) (saved run')
                        /\ truthy token = true)
    /\ (forall e, out = Throw e ->
          (e = Error msg_link_timed_out
           /\ List.length (polls run') = (List.length (polls run) + remaining)%nat)
          \/ js_includes (js "expired") (error_message e) = true).
Proof.
  induction remaining as [|remaining IH]; intros attempt run run' out E;
    cbn [poll_loop] in E.
  - inversion E; subst. split; [lia|]. split; [discriminate|].
    intros e He. inversion He; subst. left. split; [reflexivity | lia].
  - destruct (attempt_link attempt linkCode run) as [a run1] eqn:Ha.
    destruct (attempt_link_spec attempt linkCode run run1 a Ha)
      as (Hp & Hok & Hthrow).
    assert (Hlen : List.length (polls run1) = S (List.length (polls run))).
    { rewrite Hp, length_app. cbn. lia. }
    destruct a as [user|e|].
    + inversion E; subst. split; [lia|]. split; [|discriminate].
      intros u _. exact (Hok user eq_refl).
    + inversion E; subst. split; [lia|]. split; [discriminate|].
      intros e' He. inversion He; subst. right. exact (Hthrow e' eq_refl).
    + destruct (IH (S attempt) run1 run' out E) as (I1 & I2 & I3).
      split; [lia|]. split; [exact I2|].
      intros e He. destruct (I3 e He) as [[Ht Hl]|Hi]; [left | now right].
      split; [exact Ht | lia].
Qed.

(** X20.  [pollForLinkCompletion] issues at most [maxAttempts] status
    requests; it returns a user only after saving a truthy token; and the
    only errors it throws are "Linking timed out. Please try again.", after
    exactly [maxAttempts] requests, and errors whose message contains
    "expired". *)
Theorem link_polling_is_bounded (linkCode : jsstring) (maxAttempts : nat) :
  let result := pollForLinkCompletion linkCode maxAttempts in
  (List.length (polls (snd result)) <= maxAttempts)%nat
  /\ (forall user, fst result = Ok user ->
        exists token, In (js "wizzlethorpeToken", token) (saved (snd result))
                      /\ truthy token = true)
  /\ (forall e, fst result = Throw e ->
        (e = Error msg_link_timed_out
         /\ List.length (polls (snd result)) = maxAttempts)
        \/ js_includes (js "expired") (error_message e) = true).
Proof.
  intro result. subst result. unfold pollForLinkCompletion.
  destruct (poll_loop maxAttempts 0 linkCode no_run) as [out run'] eqn:E.
  destruct (poll_loop_spec linkCode maxAttempts 0 no_run run' out E)
    as (H1 & H2 & H3).
  cbn [fst snd]. cbn [no_run polls List.length] in *.
  split; [lia|]. split; [exact H2|].
  intros e He. destruct (H3 e He) as [[Ht Hl]|Hi]; [left | now right].
  split; [exact Ht | lia].
Qed.

Lemma pending_loop (linkCode : jsstring) (remaining : nat) :
  (forall attempt, still_pending (poll_status attempt (link_status_url linkCode))) ->
  forall (attempt : nat) (run : LinkRun),
    poll_loop remaining attempt linkCode run
    = (Throw (Error msg_link_timed_out),
       {| polls := polls run ++ repeat (link_status_url linkCode) remaining;
          saved := saved run;
          retried := retried run |}).
Proof.
  intro Hp. induction remaining as [|remaining IH]; intros attempt run;
    cbn [poll_loop repeat].
  - rewrite app_nil_r. destruct run; reflexivity.
  - destruct (Hp attempt) as (response & data & status & Hr & Hb & Hs & Hc & He).
    unfold attempt_link. rewrite Hr, Hb, Hs, Hc, He. cbn [andb].
    rewrite IH. cbn [polled polls saved retried].
    now rewrite <- app_assoc.
Qed.

(** X21.  While every status response is pending, [pollForLinkCompletion]
    issues exactly [maxAttempts] requests, saves nothing, and throws
    "Linking timed out. Please try again.". *)
Theorem pending_link_times_out (linkCode : jsstring) (maxAttempts : nat) :
  (forall attempt, still_pending (poll_status attempt (link_status_url linkCode))) ->
  pollForLinkCompletion linkCode maxAttempts
  = (Throw (Error msg_link_timed_out),
     {| polls := repeat (link_status_url linkCode) maxAttempts;
        saved := [];
        retried := [] |}).
Proof.
  intro Hp. unfold pollForLinkCompletion.
  now rewrite (pending_loop linkCode maxAttempts Hp 0 no_run).
Qed.

End WithHost.

Lemma link_polling_is_bounded_witness :
  exists token : Js,
    In (js "wizzlethorpeToken", token)
       (saved (snd (pollForLinkCompletion (H := link_completes_at_3) (js "ABC123") 120)))
    /\ truthy token = true.
Proof.
  exact (proj1 (proj2 (@link_polling_is_bounded link_completes_at_3 (js "ABC123") 120))
           merlin eq_refl).
Defined.

Lemma pending_link_times_out_witness :
  fst (pollForLinkCompletion (H := link_pending) (js "ABC123") 120)
  = Throw (Error msg_link_timed_out).
Proof.
  refine (f_equal fst (@pending_link_times_out link_pending (js "ABC123") 120 _)).
  intro attempt. unfold still_pending.
  eexists _, _, _. repeat split; reflexivity.
Defined.

Section WithPlatform.

Context {P : Platform}.

(** X22.  To a player, while the setting [showCocktailEffects] is off, the
    chat card depends on the garnish only through whether there is one and
    through its name, and not on the rolled effect or on the roll: two
    garnishes (records of any shape, or none) that are both present or both
    absent and have the same [name] give the same card, whatever the
    effects and the rolls.  To the game master the card does not depend on
    the setting. *)
Theorem hidden_effects_do_not_reach_players
    (cocktail liquor ingredient : Js) :
  (forall (garnish garnish' effect effect' effectRoll effectRoll' : Js),
      truthy garnish = truthy garnish' ->
      get_opt garnish (js "name") = get_opt garnish' (js "name") ->
      buildChatContent false false cocktail liquor ingredient
        garnish effect effectRoll
      = buildChatContent false false cocktail liquor ingredient
          garnish' effect' effectRoll')
  /\ (forall (showEffects : bool) (garnish effect effectRoll : Js),
         buildChatContent showEffects true cocktail liquor ingredient garnish
           effect effectRoll
         = buildChatContent true true cocktail liquor ingredient garnish
             effect effectRoll).
Proof.
  split.
  - intros garnish garnish' effect effect' effectRoll effectRoll' Htruthy Hname.
    unfold buildChatContent.
    destruct (get cocktail (js "name")); [|reflexivity].
    destruct (get cocktail (js "description")); [|reflexivity].
    cbn [orb]. now rewrite Htruthy, Hname.
  - intros. unfold buildChatContent. reflexivity.
Qed.

End WithPlatform.

Lemma hidden_effects_do_not_reach_players_witness :
  buildChatContent (P := double healthy_server) false false mojito rum mint
    mint_record (Str (js "The drinker floats.")) (Num 3)
  = buildChatContent (P := double healthy_server) false false mojito rum mint
      plain_mint Undefined (Num 1)
  /\ buildChatContent (P := double healthy_server) false false mojito rum mint
       Null (Str (js "The drinker floats.")) (Num 3)
     = buildChatContent (P := double healthy_server) false false mojito rum mint
         Null Undefined (Num 1).
Proof.
  split.
  - exact (proj1 (@hidden_effects_do_not_reach_players (double healthy_server)
                    mojito rum mint)
             mint_record plain_mint (Str (js "The drinker floats.")) Undefined
             (Num 3) (Num 1) eq_refl eq_refl).
  - exact (proj1 (@hidden_effects_do_not_reach_players (double healthy_server)
                    mojito rum mint)
             Null Null (Str (js "The drinker floats.")) Undefined
             (Num 3) (Num 1) eq_refl eq_refl).
Defined.

End HostFacts.
